(** * lukas-tr/blog: the comments embed, the page shell and the plugin manifest

    The repository holds three pieces of code:
    - [src/components/UtterancesComments.js]: a [<section>] whose ref callback
      injects the utteranc.es client script;
    - the page shell [Body] (a React class component) that reads site metadata
      and page frontmatter with lodash's [_.get] and emits the document head
      and the layout wrapper;
    - [gatsby-config.js]: the ordered plugin manifest.

    A fourth file is an article of the blog; the Go resolver and the React
    client it develops are embedded as well.

    The development below embeds the three of them over a small model of the
    JavaScript values they handle, of the DOM calls the ref callback makes and
    of a world (process environment, document, component props) that the
    effectful code reads and writes through a state-and-exception monad. *)

From Stdlib Require Import ZArith String Ascii List Lia.
From stdpp Require Import base strings list gmap pretty.

Set Warnings "-register-all".

(** ** JavaScript values and the operators the components use *)

Module JS.

(** The values that JSON and YAML data can hold, plus [undefined] and [NaN].
    [VNum n] is the integer-valued number [n], for [n] a safe integer (at
    most [2^53 - 1] in magnitude, see [safe]); fractions and larger numbers
    are not represented.  An object is the list of its own enumerable
    properties in enumeration order; none of these values is callable. *)
Inductive value : Type :=
| VUndefined
| VNull
| VBool (b : bool)
| VNum (n : Z)
| VNaN
| VStr (s : string)
| VArr (items : list value)
| VObj (fields : list (string * value)).

(** [v == null] *)
Definition nullish (v : value) : bool :=
  match v with
  | VUndefined | VNull => true
  | _ => false
  end.

(** ToBoolean *)
Definition truthy (v : value) : bool :=
  match v with
  | VUndefined | VNull | VNaN => false
  | VBool b => b
  | VNum n => negb (n =? 0)%Z
  | VStr s => negb (String.eqb s EmptyString)
  | VArr _ | VObj _ => true
  end.

(** [String.prototype.concat]-style join of the pieces with a separator. *)
Fixpoint join (sep : string) (l : list string) : string :=
  match l with
  | [] => EmptyString
  | x :: rest =>
      match rest with
      | [] => x
      | _ => x +:+ sep +:+ join sep rest
      end
  end.

(** Own-property lookup in an object's property list. *)
Fixpoint assoc (k : string) (fields : list (string * value)) : option value :=
  match fields with
  | [] => None
  | (k', v) :: rest => if String.eqb k k' then Some v else assoc k rest
  end.

(** Every number inside the value is a safe integer, the range in which the
    decimal numeral is the number's text. *)
Fixpoint safe (v : value) : bool :=
  match v with
  | VNum n => (Z.abs n <=? 2 ^ 53 - 1)%Z
  | VArr items => forallb safe items
  | VObj fields => forallb (fun kv : string * value => let (_, x) := kv in safe x) fields
  | _ => true
  end.

(** ToString; [None] is the [TypeError] of a value that cannot be converted.
    A plain object prints as [[object Object]] through the inherited
    [toString]; an own [toString] member shadows it and, not being callable,
    leaves the object without a conversion.  An array joins the texts of its
    items with commas, [undefined] and [null] items printing as nothing. *)
Fixpoint to_string (v : value) : option string :=
  match v with
  | VUndefined => Some "undefined"
  | VNull => Some "null"
  | VBool true => Some "true"
  | VBool false => Some "false"
  | VNum n => Some (pretty n)
  | VNaN => Some "NaN"
  | VStr s => Some s
  | VArr items =>
      match (fix texts (l : list value) : option (list string) :=
               match l with
               | [] => Some []
               | x :: rest =>
                   match match x with
                         | VUndefined | VNull => Some EmptyString
                         | _ => to_string x
                         end, texts rest with
                   | Some t, Some ts => Some (t :: ts)
                   | _, _ => None
                   end
               end) items with
      | Some ts => Some (join "," ts)
      | None => None
      end
  | VObj fields =>
      match assoc "toString" fields with
      | Some _ => None
      | None => Some "[object Object]"
      end
  end.

(** ToPrimitive (default hint): objects and arrays go through [toString];
    [None] is the [TypeError]. *)
Definition to_primitive (v : value) : option value :=
  match v with
  | VArr _ | VObj _ => VStr <$> to_string v
  | _ => Some v
  end.

(** The value can be converted to a primitive. *)
Definition converts (v : value) : bool :=
  match to_primitive v with
  | Some _ => true
  | None => false
  end.

(** ToNumber on a primitive that is not a string; [None] is [NaN]. *)
Definition to_number (v : value) : option Z :=
  match v with
  | VNull => Some 0%Z
  | VBool true => Some 1%Z
  | VBool false => Some 0%Z
  | VNum n => Some n
  | _ => None
  end.

Definition is_string (v : value) : bool :=
  match v with VStr _ => true | _ => false end.

(** The binary [+]: both operands are converted to primitives, left first;
    then concatenation as soon as one of them is a string, numeric addition
    otherwise.  [None] is the [TypeError] of a failed conversion. *)
Definition add (a b : value) : option value :=
  pa ← to_primitive a;
  pb ← to_primitive b;
  if is_string pa || is_string pb
  then sa ← to_string pa; sb ← to_string pb; Some (VStr (sa +:+ sb))
  else Some (match to_number pa, to_number pb with
             | Some x, Some y => VNum (x + y)
             | _, _ => VNaN
             end).

(** [a && b] on already evaluated operands (the right operand of the page
    shell's guard has no effect, so evaluating it eagerly is harmless). *)
Definition and (a b : value) : value :=
  if truthy a then b else a.

(** [a === b] between a value and a string literal. *)
Definition strict_eq_string (a : value) (s : string) : bool :=
  match a with
  | VStr t => String.eqb t s
  | _ => false
  end.

(** [k in Object(o)] and [o[k]] for the keys the page shell reads: none of
    them is an array index, [length] or a prototype member, so only plain
    objects answer. *)
Definition has_key (o : value) (k : string) : bool :=
  match o with
  | VObj fields => bool_decide (is_Some (assoc k fields))
  | _ => false
  end.

Definition get_prop (o : value) (k : string) : value :=
  match o with
  | VObj fields => default VUndefined (assoc k fields)
  | _ => VUndefined
  end.

(** *** lodash [_.get]

    A path is given by its dot-separated segments.  lodash first asks whether
    the whole path string is itself a key of the object ([isKey]); if so it
    is used as a single key, otherwise the segments are walked, stopping with
    [undefined] at the first nullish intermediate value. *)
Definition castPath (path : list string) (object : value) : list string :=
  let whole := join "." path in
  if negb (nullish object) && has_key object whole then [whole] else path.

Fixpoint walk (object : value) (path : list string) : value :=
  match path with
  | [] => object
  | k :: rest => if nullish object then VUndefined else walk (get_prop object k) rest
  end.

Definition baseGet (object : value) (path : list string) : value :=
  match castPath path object with
  | [] => VUndefined
  | p => walk object p
  end.

Definition get (object : value) (path : list string) : value :=
  if nullish object then VUndefined else baseGet object path.

(** *** [JSON.stringify] *)

Definition dquote : ascii := "034"%char.
Definition backslash : ascii := "092"%char.

Definition hex_digit (n : N) : ascii :=
  match n with
  | 0 => "0" | 1 => "1" | 2 => "2" | 3 => "3" | 4 => "4" | 5 => "5"
  | 6 => "6" | 7 => "7" | 8 => "8" | 9 => "9" | 10 => "a" | 11 => "b"
  | 12 => "c" | 13 => "d" | 14 => "e" | _ => "f"
  end%N%char.

Definition escape_char (c : ascii) : string :=
  let n := N_of_ascii c in
  if (n =? 8)%N then String backslash "b"
  else if (n =? 9)%N then String backslash "t"
  else if (n =? 10)%N then String backslash "n"
  else if (n =? 12)%N then String backslash "f"
  else if (n =? 13)%N then String backslash "r"
  else if (n =? 34)%N then String backslash (String dquote EmptyString)
  else if (n =? 92)%N then String backslash (String backslash EmptyString)
  else if (n <? 32)%N
       then String backslash
              ("u00" +:+ String (hex_digit (n / 16)) (String (hex_digit (n mod 16)) EmptyString))
  else String c EmptyString.

Fixpoint escape (s : string) : string :=
  match s with
  | EmptyString => EmptyString
  | String c rest => escape_char c +:+ escape rest
  end.

(** QuoteJSONString *)
Definition quote (s : string) : string :=
  String dquote (escape s +:+ String dquote EmptyString).

(** SerializeJSONProperty; [None] is the [undefined] result.  A property
    whose value does not serialize is left out of an object and written
    [null] in an array. *)
Fixpoint serialize (v : value) : option string :=
  match v with
  | VUndefined => None
  | VNull | VNaN => Some "null"
  | VBool true => Some "true"
  | VBool false => Some "false"
  | VNum n => Some (pretty n)
  | VStr s => Some (quote s)
  | VArr items =>
      Some ("[" +:+ join "," (List.map (fun x => default "null" (serialize x)) items) +:+ "]")
  | VObj fields =>
      Some ("{" +:+
            join ","
              ((fix members (l : list (string * value)) : list string :=
                  match l with
                  | [] => []
                  | (k, x) :: rest =>
                      match serialize x with
                      | Some s => (quote k +:+ ":" +:+ s) :: members rest
                      | None => members rest
                      end
                  end) fields) +:+ "}")
  end.

Definition JSON_stringify (v : value) : value :=
  match serialize v with
  | Some s => VStr s
  | None => VUndefined
  end.

End JS.

(** ** The world the components run in *)

Module Dom.

(** A node reference is an index into the document's node store. *)
Abbreviation loc := nat (only parsing).

(** A DOM element: its tag, the JavaScript properties assigned on the node
    object ([node.src = ...]), its content attributes ([setAttribute]), and
    its place in the tree. *)
Record element := Element {
  localName : string;
  properties : gmap string JS.value;
  attributes : gmap string string;
  parentNode : option loc;
  childNodes : list loc
}.

(** [process.env.NODE_ENV], the document's nodes and the props of the
    mounted page shell ([this.props], always an object). *)
Record world := World {
  NODE_ENV : JS.value;
  nodes : list element;
  props : list (string * JS.value)
}.

Definition set_nodes (f : list element -> list element) (w : world) : world :=
  World (NODE_ENV w) (f (nodes w)) (props w).

Definition set_property (k : string) (v : JS.value) (e : element) : element :=
  Element (localName e) (<[k:=v]> (properties e)) (attributes e) (parentNode e) (childNodes e).

Definition set_attribute (k v : string) (e : element) : element :=
  Element (localName e) (properties e) (<[k:=v]> (attributes e)) (parentNode e) (childNodes e).

Definition set_parent (p : option loc) (e : element) : element :=
  Element (localName e) (properties e) (attributes e) p (childNodes e).

Definition push_child (c : loc) (e : element) : element :=
  Element (localName e) (properties e) (attributes e) (parentNode e) (childNodes e ++ [c]).

Definition drop_child (c : loc) (e : element) : element :=
  Element (localName e) (properties e) (attributes e) (parentNode e)
          (filter (fun x => x <> c) (childNodes e)).

(** *** State and exceptions *)

Inductive outcome (A : Type) : Type :=
| Done (a : A) (w : world)
| Thrown (error : string) (w : world).
Arguments Done {A} a w.
Arguments Thrown {A} error w.

Definition M (A : Type) : Type := world -> outcome A.

#[global] Instance M_ret : MRet M := fun A a w => Done a w.

#[global] Instance M_bind : MBind M := fun A B k m w =>
  match m w with
  | Done a w' => k a w'
  | Thrown e w' => Thrown e w'
  end.

Definition throw {A} (e : string) : M A := fun w => Thrown e w.

(** Unfolds the monad's operations in the goal. *)
Ltac run := unfold mbind, M_bind, mret, M_ret, throw.

(** *** Reads *)

Definition process_env_NODE_ENV : M JS.value := fun w => Done (NODE_ENV w) w.

(** [this.props]: the own properties of the props object. *)
Definition this_props : M (list (string * JS.value)) := fun w => Done (props w) w.

(** *** DOM calls *)

(** [document.createElement(tag)]: a fresh, detached element. *)
Definition createElement (tag : string) : M loc :=
  fun w => Done (length (nodes w))
                (set_nodes (fun ns => ns ++ [Element tag ∅ ∅ None []]) w).

(** A write through a node reference. *)
Definition update_node (l : loc) (f : element -> element) : M unit :=
  fun w => match nodes w !! l with
           | Some _ => Done tt (set_nodes (alter f l) w)
           | None => throw "TypeError" w
           end.

(** [node.k = v] *)
Definition assign (l : loc) (k : string) (v : JS.value) : M unit :=
  update_node l (set_property k v).

(** [node.setAttribute(k, v)] *)
Definition setAttribute (l : loc) (k v : string) : M unit :=
  update_node l (set_attribute k v).

(** [a] is an inclusive ancestor of [b], following parent links. *)
Fixpoint is_ancestor (ns : list element) (fuel : nat) (a b : loc) : bool :=
  if Nat.eqb a b then true
  else match fuel with
       | O => false
       | S fuel' =>
           match ns !! b with
           | Some e =>
               match parentNode e with
               | Some p => is_ancestor ns fuel' a p
               | None => false
               end
           | None => false
           end
       end.

(** [target.appendChild(child)].  Calling it on [null] is a [TypeError]; a
    child that is an inclusive ancestor of the target is refused; a child
    that already has a parent is first removed from it. *)
Definition appendChild (target : option loc) (child : loc) : M unit :=
  fun w =>
    match target with
    | None => throw "TypeError" w
    | Some t =>
        match nodes w !! t, nodes w !! child with
        | Some _, Some ce =>
            if is_ancestor (nodes w) (length (nodes w)) child t
            then throw "HierarchyRequestError" w
            else
              let detached :=
                match parentNode ce with
                | Some q => alter (drop_child child) q (nodes w)
                | None => nodes w
                end in
              Done tt (set_nodes
                         (fun _ => alter (push_child child) t
                                     (alter (set_parent (Some t)) child detached)) w)
        | _, _ => throw "TypeError" w
        end
    end.

(** Every parent link and every child link points to an allocated node. *)
Definition links_below (n : nat) (e : element) : bool :=
  match parentNode e with
  | Some p => Nat.ltb p n
  | None => true
  end && forallb (fun c => Nat.ltb c n) (childNodes e).

Definition dom_closed (ns : list element) : bool :=
  forallb (links_below (length ns)) ns.

End Dom.

(** ** The comments embed ([UtterancesComments.js]) *)

Module UtterancesComments.
Import Dom.

(** The ref callback of the [<section>]: React calls it with the section's
    DOM node when the component mounts and with [null] ([None]) when there is
    no node. *)
Definition ref (elem : option loc) : M unit :=
  match elem with
  | None => mret tt
  | Some _ =>
      env ← process_env_NODE_ENV;
      if JS.strict_eq_string env "development" then mret tt
      else
        scriptElem ← createElement "script";
        assign scriptElem "src" (JS.VStr "https://utteranc.es/client.js");;
        assign scriptElem "async" (JS.VBool true);;
        assign scriptElem "crossOrigin" (JS.VStr "anonymous");;
        setAttribute scriptElem "repo" "lukas-tr/blog";;
        setAttribute scriptElem "issue-term" "title";;
        setAttribute scriptElem "label" "comment";;
        setAttribute scriptElem "theme" "github-light";;
        appendChild elem scriptElem
  end.

(** [n] successive mounts onto the same target. *)
Fixpoint mounts (n : nat) (elem : option loc) : M unit :=
  match n with
  | O => mret tt
  | S n' => ref elem;; mounts n' elem
  end.

(** The script element a production mount leaves under target [t]. *)
Definition utterances_script (t : loc) : element :=
  Element "script"
    (<["crossOrigin" := JS.VStr "anonymous"]>
       (<["async" := JS.VBool true]>
          (<["src" := JS.VStr "https://utteranc.es/client.js"]> ∅)))
    (<["theme" := "github-light"]>
       (<["label" := "comment"]>
          (<["issue-term" := "title"]>
             (<["repo" := "lukas-tr/blog"]> ∅))))
    (Some t) [].

(** The store after one production mount onto [t], and after [n] of them. *)
Definition mounted (t : loc) (ns : list element) : list element :=
  alter (push_child (length ns)) t ns ++ [utterances_script t].

Fixpoint mounted_n (n : nat) (t : loc) (ns : list element) : list element :=
  match n with
  | O => ns
  | S n' => mounted_n n' t (mounted t ns)
  end.

(** An element with further children appended. *)
Definition push_children (cs : list loc) (e : element) : element :=
  Element (localName e) (properties e) (attributes e) (parentNode e) (childNodes e ++ cs).

(** The children of node [t] that are script elements. *)
Definition is_script (ns : list element) (c : loc) : bool :=
  match ns !! c with
  | Some ce => String.eqb (localName ce) "script"
  | None => false
  end.

Definition script_children (ns : list element) (t : loc) : list loc :=
  match ns !! t with
  | Some e => List.filter (is_script ns) (childNodes e)
  | None => []
  end.

(** What a mount may do to an element that was already there: nothing but
    append children. *)
Definition preserved (e e' : element) : Prop :=
  localName e' = localName e /\
  properties e' = properties e /\
  attributes e' = attributes e /\
  parentNode e' = parentNode e /\
  childNodes e `prefix_of` childNodes e'.

End UtterancesComments.

(** ** The page shell ([Body]) *)

Module Body.
Import Dom.

(** A React element tree: an element with its props and children, an
    embedded [{expression}], or an array of children. *)
Inductive node : Type :=
| El (type : string) (attrs : list (string * JS.value)) (children : list node)
| Expr (v : JS.value)
| Items (l : list node).

(** [_.get(this.props, path)] *)
Definition get_in_props (path : list string) : M JS.value :=
  ps ← this_props; mret (JS.get (JS.VObj ps) path).

Section Render.

(** [safePrefix] is imported from [../utils]: a helper from a relative URL
    to the URL to link.  The shell is parametric in it. *)
Variable safePrefix : string -> JS.value.

(** The array literal that is mapped to [<meta>] tags. *)
Definition meta_entries (description title author image : JS.value) : list JS.value :=
  [ JS.VObj [("name", JS.VStr "description"); ("content", description)];
    JS.VObj [("property", JS.VStr "og:title"); ("content", title)];
    JS.VObj [("property", JS.VStr "og:description"); ("content", description)];
    JS.VObj [("property", JS.VStr "og:type"); ("content", JS.VStr "website")];
    JS.VObj [("property", JS.VStr "og:image"); ("content", image)];
    JS.VObj [("name", JS.VStr "twitter:card"); ("content", JS.VStr "summary")];
    JS.VObj [("name", JS.VStr "twitter:creator"); ("content", author)];
    JS.VObj [("name", JS.VStr "twitter:title"); ("content", title)];
    JS.VObj [("name", JS.VStr "twitter:description"); ("content", description)];
    JS.VObj [("name", JS.VStr "twitter:image"); ("content", image)] ].

(** [(m, idx) => <meta key={idx} name={m.name} property={m.property}
    content={m.content}></meta>] *)
Definition meta_tag (idx : nat) (m : JS.value) : node :=
  El "meta"
     [("key", JS.VNum (Z.of_nat idx));
      ("name", JS.get_prop m "name");
      ("property", JS.get_prop m "property");
      ("content", JS.get_prop m "content")] [].

(** The object handed to [JSON.stringify]. *)
Definition website_descriptor (url : JS.value) : JS.value :=
  JS.VObj [("@context", JS.VStr "https://schema.org");
           ("@type", JS.VStr "WebSite");
           ("url", url)].

(** The JSX returned by [render], over the values read from the context. *)
Definition shell (description title author image url className : JS.value)
    (this_props : list (string * JS.value)) : node :=
  El "React.Fragment" []
    [ El "Helmet"
        [("script",
          JS.VArr [JS.VObj [("type", JS.VStr "application/ld+json");
                            ("innerHTML", JS.JSON_stringify (website_descriptor url))]])]
        [ El "title" [] [Expr title];
          El "meta" [("charSet", JS.VStr "utf-8")] [];
          El "meta" [("name", JS.VStr "viewport");
                     ("content", JS.VStr "width=device-width, initialScale=1.0")] [];
          El "meta" [("name", JS.VStr "google"); ("content", JS.VStr "notranslate")] [];
          El "link" [("href", JS.VStr "https://fonts.googleapis.com/css?family=Roboto:400,400i,700,700i");
                     ("rel", JS.VStr "stylesheet")] [];
          El "link" [("rel", JS.VStr "stylesheet");
                     ("href", safePrefix "assets/css/main.css")] [];
          El "link" [("rel", JS.VStr "alternate");
                     ("type", JS.VStr "application/rss+xml");
                     ("title", JS.VStr "RSS");
                     ("href", JS.VStr "https://blog.lukastroyer.com/rss.xml")] [];
          El "link" [("rel", JS.VStr "stylesheet");
                     ("href", safePrefix "assets/css/all.css")] [];
          Items (imap meta_tag (meta_entries description title author image)) ];
      El "div"
        [("id", JS.VStr "page"); ("className", className)]
        [ El "Header" this_props [];
          El "div" [("id", JS.VStr "content"); ("className", JS.VStr "site-content")]
            [ El "div" [("className", JS.VStr "inner")]
                [ El "main" [("id", JS.VStr "main"); ("className", JS.VStr "site-main")]
                    [Expr (JS.get_prop (JS.VObj this_props) "children")];
                  El "Footer" this_props [] ] ] ] ].

Definition p_description := ["pageContext"; "site"; "siteMetadata"; "description"].
Definition p_frontmatter_title := ["pageContext"; "frontmatter"; "title"].
Definition p_title := ["pageContext"; "site"; "siteMetadata"; "title"].
Definition p_author := ["pageContext"; "site"; "siteMetadata"; "author"].
Definition p_image := ["pageContext"; "site"; "siteMetadata"; "image"].
Definition p_siteUrl := ["pageContext"; "site"; "siteMetadata"; "siteUrl"].
Definition p_layout_style := ["pageContext"; "site"; "siteMetadata"; "layout_style"].
Definition p_palette := ["pageContext"; "site"; "siteMetadata"; "palette"].

(** [a + b], throwing the [TypeError] of a failed conversion. *)
Definition plus (a b : JS.value) : M JS.value :=
  match JS.add a b with
  | Some v => mret v
  | None => throw "TypeError"
  end.

(** [Body.render] *)
Definition render : M node :=
  description ← get_in_props p_description;
  page_title ← get_in_props p_frontmatter_title;
  prefix ← (if JS.truthy page_title
            then page_title' ← get_in_props p_frontmatter_title;
                 plus page_title' (JS.VStr " - ")
            else mret page_title);
  site_title ← get_in_props p_title;
  title ← plus prefix site_title;
  author ← get_in_props p_author;
  image ← get_in_props p_image;
  url ← get_in_props p_siteUrl;
  layout_style ← get_in_props p_layout_style;
  styled ← plus (JS.VStr "site style-") layout_style;
  spaced ← plus styled (JS.VStr " palette-");
  palette ← get_in_props p_palette;
  className ← plus spaced palette;
  ps ← this_props;
  mret (shell description title author image url className ps).

(** The title and the wrapper class as functions of the props alone;
    [None] where a concatenation throws. *)
Definition title_of (ps : list (string * JS.value)) : option JS.value :=
  let page_title := JS.get (JS.VObj ps) p_frontmatter_title in
  prefix ← (if JS.truthy page_title
            then JS.add page_title (JS.VStr " - ")
            else Some page_title);
  JS.add prefix (JS.get (JS.VObj ps) p_title).

Definition class_of (ps : list (string * JS.value)) : option JS.value :=
  styled ← JS.add (JS.VStr "site style-") (JS.get (JS.VObj ps) p_layout_style);
  spaced ← JS.add styled (JS.VStr " palette-");
  JS.add spaced (JS.get (JS.VObj ps) p_palette).

(** The tree [render] returns for a title [t] and a wrapper class [c]. *)
Definition tree_of (ps : list (string * JS.value)) (t c : JS.value) : node :=
  shell (JS.get (JS.VObj ps) p_description) t
        (JS.get (JS.VObj ps) p_author) (JS.get (JS.VObj ps) p_image)
        (JS.get (JS.VObj ps) p_siteUrl) c ps.

Definition markup (ps : list (string * JS.value)) : option node :=
  title ← title_of ps;
  className ← class_of ps;
  Some (tree_of ps title className).

(** The values [render] concatenates convert to primitives: the two titles,
    and the wrapper's style and palette. *)
Definition title_converts (ps : list (string * JS.value)) : bool :=
  JS.converts (JS.get (JS.VObj ps) p_frontmatter_title)
  && JS.converts (JS.get (JS.VObj ps) p_title).

Definition wrapper_converts (ps : list (string * JS.value)) : bool :=
  JS.converts (JS.get (JS.VObj ps) p_layout_style)
  && JS.converts (JS.get (JS.VObj ps) p_palette).

Definition convertible_context (ps : list (string * JS.value)) : bool :=
  title_converts ps && wrapper_converts ps.

End Render.

(** *** Reading the rendered tree *)

(** A node and everything below it, in document order. *)
Fixpoint descendants (n : node) : list node :=
  n :: match n with
       | El _ _ cs => flat_map descendants cs
       | Items cs => flat_map descendants cs
       | Expr _ => []
       end.

Definition attr (k : string) (n : node) : JS.value :=
  match n with
  | El _ attrs _ => default JS.VUndefined (JS.assoc k attrs)
  | _ => JS.VUndefined
  end.

Definition has_type (type : string) (n : node) : bool :=
  match n with
  | El t _ _ => String.eqb t type
  | _ => false
  end.

(** The contents of the [<title>] elements. *)
Definition document_titles (n : node) : list JS.value :=
  flat_map (fun t => match t with
                     | El _ _ [Expr v] => [v]
                     | _ => []
                     end)
           (List.filter (has_type "title") (descendants n)).

(** The [content] of every [<meta>] whose [name] or [property] is [key]. *)
Definition meta_contents (key : string) (n : node) : list JS.value :=
  List.map (attr "content")
    (List.filter (fun m => has_type "meta" m &&
                           (JS.strict_eq_string (attr "name" m) key
                            || JS.strict_eq_string (attr "property" m) key))
                 (descendants n)).

(** The [innerHTML] of the scripts handed to [Helmet]. *)
Definition helmet_scripts (n : node) : list JS.value :=
  flat_map (fun h => match attr "script" h with
                     | JS.VArr l => List.map (fun s => JS.get_prop s "innerHTML") l
                     | _ => []
                     end)
           (List.filter (has_type "Helmet") (descendants n)).

(** The class names of the [#page] wrapper. *)
Definition page_class (n : node) : list JS.value :=
  List.map (attr "className")
    (List.filter (fun d => has_type "div" d && JS.strict_eq_string (attr "id" d) "page")
                 (descendants n)).

(** A value that renders as nothing. *)
Definition blank (v : JS.value) : Prop :=
  v = JS.VUndefined \/ v = JS.VStr EmptyString.

(** The JSON-LD text of a descriptor without a [url] member. *)
Definition descriptor_without_url : string :=
  let q := String JS.dquote EmptyString in
  "{" +:+ q +:+ "@context" +:+ q +:+ ":" +:+ q +:+ "https://schema.org" +:+ q +:+ ","
      +:+ q +:+ "@type" +:+ q +:+ ":" +:+ q +:+ "WebSite" +:+ q +:+ "}".

(** The three tags that carry the title, read off a rendered tree. *)
Definition title_tags (m : node) : list JS.value :=
  document_titles m ++ meta_contents "og:title" m ++ meta_contents "twitter:title" m.

(** The paths [render] reads from the props. *)
Definition read_paths : list (list string) :=
  [p_description; p_frontmatter_title; p_title; p_author; p_image; p_siteUrl;
   p_layout_style; p_palette].

(** How many elements of a type the tree holds. *)
Definition count_type (type : string) (n : node) : nat :=
  length (List.filter (has_type type) (descendants n)).

(** The [href] of every [<link rel="stylesheet">]. *)
Definition stylesheet_hrefs (n : node) : list JS.value :=
  List.map (attr "href")
    (List.filter (fun l => has_type "link" l && JS.strict_eq_string (attr "rel" l) "stylesheet")
                 (descendants n)).

(** A character that [JSON.stringify] writes as it is. *)
Definition plain_char (c : ascii) : bool :=
  let n := N_of_ascii c in
  (32 <=? n)%N && negb (n =? 34)%N && negb (n =? 92)%N.

Fixpoint plain (s : string) : bool :=
  match s with
  | EmptyString => true
  | String c rest => plain_char c && plain rest
  end.

(** The JSON-LD text of a descriptor whose [url] member is the text [u]. *)
Definition descriptor_with_url (u : string) : string :=
  let q := String JS.dquote EmptyString in
  "{" +:+ q +:+ "@context" +:+ q +:+ ":" +:+ q +:+ "https://schema.org" +:+ q +:+ ","
      +:+ q +:+ "@type" +:+ q +:+ ":" +:+ q +:+ "WebSite" +:+ q +:+ ","
      +:+ q +:+ "url" +:+ q +:+ ":" +:+ q +:+ u +:+ q +:+ "}".

(** *** Sample props *)

(** Props of a page titled [Post] on a site titled [Blog], styled [classic]
    with the [blue] palette and served from [https://example.org]. *)
Definition full_page : list (string * JS.value) :=
  [("pageContext",
    JS.VObj [("site",
              JS.VObj [("siteMetadata",
                        JS.VObj [("title", JS.VStr "Blog");
                                 ("siteUrl", JS.VStr "https://example.org");
                                 ("layout_style", JS.VStr "classic");
                                 ("palette", JS.VStr "blue")])]);
             ("frontmatter", JS.VObj [("title", JS.VStr "Post")])])].


(** Props that hold children but no page context. *)
Definition contextless_page : list (string * JS.value) :=
  [("children", JS.VStr "hello")].

(** Props of a page whose frontmatter has no title, on a site titled
    [Blog]. *)
Definition untitled_page : list (string * JS.value) :=
  [("pageContext",
    JS.VObj [("site", JS.VObj [("siteMetadata", JS.VObj [("title", JS.VStr "Blog")])]);
             ("frontmatter", JS.VObj [])])].



(** Props of a page without a title on a site whose title is the number
    [5]. *)
Definition numbered_site : list (string * JS.value) :=
  [("pageContext",
    JS.VObj [("site", JS.VObj [("siteMetadata", JS.VObj [("title", JS.VNum 5)])])])].

(** Props of a page rendered without any page context. *)
Definition bare_page : list (string * JS.value) := [].

End Body.

(** ** The plugin manifest ([gatsby-config.js]) *)

Module GatsbyConfig.

(** The two arrow functions among the syntax highlighter's options. *)
Inductive closure : Type :=
| Identity                 (* x => x *)
| Constant (s : string).   (* (...) => s *)

(** Configuration data: what the module exports is an object literal of
    strings, booleans, arrays, objects, functions and required JSON files. *)
Inductive cfg : Type :=
| CStr (s : string)
| CBool (b : bool)
| CArr (items : list cfg)
| CObj (fields : list (string * cfg))
| CFun (f : closure)
| CJson (v : JS.value).

Section Manifest.

(** What the module reads from its surroundings: its directory, Node's
    [path.resolve], and the two JSON files it requires. *)
Variable __dirname : string.
Variable path_resolve : string -> string.
Variable site_metadata : JS.value.
Variable menus : JS.value.

Definition remark_vscode_options : cfg :=
  CObj [("colorTheme",
         CObj [("defaultTheme", CStr "Light+ (default light)");
               ("prefersDarkTheme", CStr "Dark+ (default dark)")]);
        ("wrapperClassName", CStr EmptyString);
        ("injectStyles", CBool true);
        ("extensions", CArr []);
        ("extensionDataDirectory", CStr (path_resolve "extensions"));
        ("languageAliases", CObj []);
        ("replaceColor", CFun Identity);
        ("getLineClassName", CFun (Constant EmptyString));
        ("logLevel", CStr "error")].

Definition plugins : list cfg :=
  [ CObj [("resolve", CStr "gatsby-plugin-sitemap");
          ("options", CObj [("exclude", CArr [CStr "/admin"])])];
    CObj [("resolve", CStr "gatsby-plugin-robots-txt");
          ("options",
           CObj [("policy", CArr [CObj [("userAgent", CStr "*"); ("allow", CStr "/")]])])];
    CStr "gatsby-plugin-react-helmet";
    CStr "gatsby-source-data";
    CObj [("resolve", CStr "gatsby-source-filesystem");
          ("options", CObj [("name", CStr "pages");
                            ("path", CStr (__dirname +:+ "/src/pages"))])];
    CObj [("resolve", CStr "gatsby-plugin-stackbit-static-sass");
          ("options",
           CObj [("inputFile", CStr (__dirname +:+ "/src/sass/main.scss"));
                 ("outputFile", CStr (__dirname +:+ "/public/assets/css/main.css"))])];
    CObj [("resolve", CStr "gatsby-transformer-remark");
          ("options",
           CObj [("plugins",
                  CArr [CStr "gatsby-remark-component";
                        CObj [("resolve", CStr "gatsby-remark-vscode");
                              ("options", remark_vscode_options)]])])];
    CObj [("resolve", CStr "gatsby-remark-page-creator");
          ("options", CObj [])];
    CObj [("resolve", CStr "@stackbit/gatsby-plugin-menus");
          ("options", CObj [("sourceUrlPath", CStr "fields.url");
                            ("pageContextProperty", CStr "menus");
                            ("menus", CJson menus)])] ].

(** [module.exports] *)
Definition module_exports : cfg :=
  CObj [("pathPrefix", CStr "/");
        ("siteMetadata", CJson site_metadata);
        ("plugins", CArr plugins)].

End Manifest.

(** *** Reading the manifest *)

Fixpoint field (k : string) (fields : list (string * cfg)) : option cfg :=
  match fields with
  | [] => None
  | (k', v) :: rest => if String.eqb k k' then Some v else field k rest
  end.

(** An entry is a bare plugin name or an object with [resolve] and
    [options]. *)
Definition entry_name (e : cfg) : option string :=
  match e with
  | CStr s => Some s
  | CObj fs => match field "resolve" fs with
               | Some (CStr s) => Some s
               | _ => None
               end
  | _ => None
  end.

Definition entry_option (k : string) (e : cfg) : option cfg :=
  match e with
  | CObj fs => match field "options" fs with
               | Some (CObj os) => field k os
               | _ => None
               end
  | _ => None
  end.

(** The entries of the exported [plugins] array, in declared order. *)
Definition declared_plugins (exports : cfg) : list cfg :=
  match exports with
  | CObj fs => match field "plugins" fs with
               | Some (CArr l) => l
               | _ => []
               end
  | _ => []
  end.

Definition plugin_names (exports : cfg) : list (option string) :=
  List.map entry_name (declared_plugins exports).

(** The first entry declared under a name. *)
Definition find_plugin (name : string) (exports : cfg) : option cfg :=
  List.find (fun e => match entry_name e with
                      | Some s => String.eqb s name
                      | None => false
                      end) (declared_plugins exports).

(** The position of the first entry declared under a name. *)
Fixpoint position (name : string) (l : list (option string)) : option nat :=
  match l with
  | [] => None
  | x :: rest =>
      if bool_decide (x = Some name) then Some 0
      else S <$> position name rest
  end.

End GatsbyConfig.

(** ** The note server and client of the GraphQL article *)

(** The article walks through a note-taking service: a Go resolver holding
    the notes and the subscribers, and a React client that keeps the list of
    notes in its query cache. *)

Module NotesServer.

Record Note := { ID : string; Text : string }.

#[global] Instance Note_eq_dec : EqDecision Note.
Proof. solve_decision. Defined.

(** [make(chan *Note, 1)] *)
Definition capacity : nat := 1.

(** The resolver's fields behind its mutex.  Every method takes the lock for
    its whole body, so a method is one atomic step on this state.  A
    subscriber's channel is created once per subscription and never shared;
    it is kept as its buffer, the notes sent and not yet read. *)
Record Resolver := {
  noteCreatedSubscribers : gmap string (list Note);
  notes : list Note
}.

(** How a call ends: it returns a value, it returns the error of
    [uuid.NewRandom], or it does not return because a send waits, lock held,
    for a reader. *)
Inductive outcome (A : Type) : Type :=
| Returned (a : A) (r : Resolver)
| Failed (r : Resolver)
| Blocked.
Arguments Returned {A} a r.
Arguments Failed {A} r.
Arguments Blocked {A}.

Definition NewResolver : Resolver :=
  {| noteCreatedSubscribers := ∅; notes := [] |}.

(** Every subscriber's channel can take one more note. *)
Definition all_have_room (subscribers : gmap string (list Note)) : bool :=
  bool_decide (map_Forall (fun _ buffer => length buffer < capacity) subscribers).

(** [CreateNote]; [random] is what [uuid.NewRandom] yields, [None] for its
    error.  The sends go through in any iteration order when every channel
    has room; otherwise the loop stops at a full channel. *)
Definition CreateNote (random : option string) (text : string) (r : Resolver)
    : outcome Note :=
  match random with
  | None => Failed r
  | Some id =>
      let note := {| ID := id; Text := text |} in
      if all_have_room (noteCreatedSubscribers r)
      then Returned note
             {| noteCreatedSubscribers :=
                  (fun buffer => buffer ++ [note]) <$> noteCreatedSubscribers r;
                notes := notes r ++ [note] |}
      else Blocked
  end.

(** [Notes] *)
Definition Notes (r : Resolver) : list Note := notes r.

(** [NoteCreated]: registers a fresh channel under a random id and hands it
    out; the channel is named here by that id. *)
Definition NoteCreated (random : option string) (r : Resolver) : outcome string :=
  match random with
  | None => Failed r
  | Some id =>
      Returned id
        {| noteCreatedSubscribers := <[id := []]> (noteCreatedSubscribers r);
           notes := notes r |}
  end.

(** The goroutine started by [NoteCreated], once the client's context is
    done. *)
Definition disconnect (id : string) (r : Resolver) : Resolver :=
  {| noteCreatedSubscribers := delete id (noteCreatedSubscribers r);
     notes := notes r |}.

(** A run of calls on the resolver. *)
Inductive call : Type :=
| CallCreateNote (random : option string) (text : string)
| CallNoteCreated (random : option string)
| CallDisconnect (id : string).

(** The resolver after a call, [None] when the call does not return. *)
Definition after (c : call) (r : Resolver) : option Resolver :=
  match c with
  | CallCreateNote random text =>
      match CreateNote random text r with
      | Returned _ r' => Some r'
      | Failed r' => Some r'
      | Blocked => None
      end
  | CallNoteCreated random =>
      match NoteCreated random r with
      | Returned _ r' => Some r'
      | Failed r' => Some r'
      | Blocked => None
      end
  | CallDisconnect id => Some (disconnect id r)
  end.

Fixpoint after_all (cs : list call) (r : Resolver) : option Resolver :=
  match cs with
  | [] => Some r
  | c :: rest =>
      match after c r with
      | Some r' => after_all rest r'
      | None => None
      end
  end.

(** No channel holds more than its capacity. *)
Definition within_capacity (r : Resolver) : Prop :=
  map_Forall (fun _ buffer => length buffer <= capacity) (noteCreatedSubscribers r).

(** The notes a list of successful calls creates. *)
Definition created (inputs : list (string * string)) : list Note :=
  List.map (fun i => {| ID := i.1; Text := i.2 |}) inputs.

Definition create_calls (inputs : list (string * string)) : list call :=
  List.map (fun i => CallCreateNote (Some i.1) i.2) inputs.

(** *** Sample states *)

(** A resolver with one subscriber, [s], waiting on an empty channel. *)
Definition one_subscriber : Resolver :=
  {| noteCreatedSubscribers := <["s" := []]> ∅; notes := [] |}.

(** The same subscriber with the note [1] left unread. *)
Definition one_unread : Resolver :=
  {| noteCreatedSubscribers := <["s" := [{| ID := "1"; Text := "milk" |}]]> ∅;
     notes := [{| ID := "1"; Text := "milk" |}] |}.

End NotesServer.

Module NotesClient.
Import NotesServer.

(** The query cache as far as [GetNotes] goes: the cached list of notes, or
    nothing. *)
Definition cache := option (list Note).

(** What the mutation's [update] callback does: it writes a new list for
    [GetNotes], or throws before writing because the cached data or the
    mutation's data is missing. *)
Inductive update_result : Type :=
| Written (notes : list Note)
| Threw.

(** [update(cache, { data })] *)
Definition update (cached : cache) (data : option Note) : update_result :=
  match cached with
  | None => Threw
  | Some cached_notes =>
      match data with
      | None => Threw
      | Some created => Written (cached_notes ++ [created])
      end
  end.

(** The cache after the callback ran. *)
Definition cache_after (cached : cache) (data : option Note) : cache :=
  match update cached data with
  | Written l => Some l
  | Threw => cached
  end.

(** The client creates notes one after the other, each mutation followed
    by its [update]; [None] when a mutation does not return. *)
Fixpoint create_and_update (inputs : list (string * string)) (r : Resolver)
    (cached : cache) : option (Resolver * cache) :=
  match inputs with
  | [] => Some (r, cached)
  | (id, text) :: rest =>
      match CreateNote (Some id) text r with
      | Returned note r' => create_and_update rest r' (cache_after cached (Some note))
      | _ => None
      end
  end.

End NotesClient.

(** * Properties *)

(** ** The operators on sample values *)

Example get_walks_the_path :
  JS.get (JS.VObj Body.untitled_page) Body.p_title = JS.VStr "Blog".
Proof. reflexivity. Qed.

Example get_stops_at_null :
  JS.get (JS.VObj [("pageContext", JS.VNull)]) Body.p_title = JS.VUndefined.
Proof. reflexivity. Qed.

Example get_prefers_whole_key :
  JS.get (JS.VObj [("a.b", JS.VNum 1); ("a", JS.VObj [("b", JS.VNum 2)])]) ["a"; "b"]
  = JS.VNum 1.
Proof. reflexivity. Qed.

Example add_coerces_undefined :
  JS.add JS.VUndefined (JS.VStr "Blog") = Some (JS.VStr "undefinedBlog").
Proof. reflexivity. Qed.

Example add_of_two_undefined :
  JS.add JS.VUndefined JS.VUndefined = Some JS.VNaN.
Proof. reflexivity. Qed.

Example add_of_an_unprintable_object :
  JS.add (JS.VStr "site style-") (JS.VObj [("toString", JS.VNum 1)]) = None.
Proof. reflexivity. Qed.

Example add_of_a_plain_object :
  JS.add (JS.VStr "site style-") (JS.VArr [JS.VNum 1; JS.VNull; JS.VObj []])
  = Some (JS.VStr "site style-1,,[object Object]").
Proof. reflexivity. Qed.

Example stringify_skips_undefined :
  JS.JSON_stringify (Body.website_descriptor JS.VUndefined)
  = JS.VStr Body.descriptor_without_url.
Proof. reflexivity. Qed.

Example stringify_escapes :
  JS.serialize (JS.VStr (String JS.dquote (String "010"%char "a")))
  = Some (String JS.dquote
            (String JS.backslash
               (String JS.dquote
                  (String JS.backslash (String "n"%char (String "a"%char
                     (String JS.dquote EmptyString))))))).
Proof. reflexivity. Qed.

Example three_mounts :
  UtterancesComments.mounts 3 (Some 0)
    (Dom.World (JS.VStr "production") [Dom.Element "section" ∅ ∅ None []] [])
  = Dom.Done tt
      (Dom.World (JS.VStr "production")
         [Dom.Element "section" ∅ ∅ None [1; 2; 3];
          UtterancesComments.utterances_script 0;
          UtterancesComments.utterances_script 0;
          UtterancesComments.utterances_script 0] []).
Proof. reflexivity. Qed.

(** ** The comments embed *)

Section CommentsFacts.
Import Dom UtterancesComments.

Lemma lookup_snoc (ns : list element) (e : element) :
  (ns ++ [e]) !! length ns = Some e.
Proof. by rewrite list_lookup_middle. Qed.

Lemma alter_snoc (f : element -> element) (ns : list element) (e : element) :
  alter f (length ns) (ns ++ [e]) = ns ++ [f e].
Proof.
  induction ns as [|x ns IH]; simpl; [done|].
  f_equal. exact IH.
Qed.

Lemma update_node_snoc (f : element -> element) (env : JS.value) (ns : list element)
    (e : element) (ps : list (string * JS.value)) :
  update_node (length ns) f (World env (ns ++ [e]) ps)
  = Done tt (World env (ns ++ [f e]) ps).
Proof.
  unfold update_node, set_nodes. cbv [nodes NODE_ENV props].
  by rewrite lookup_snoc, alter_snoc.
Qed.

Lemma links_below_spec (n : nat) (e : element) :
  links_below n e = true <->
  (forall p, parentNode e = Some p -> p < n) /\ Forall (fun c => c < n) (childNodes e).
Proof.
  unfold links_below. rewrite andb_true_iff, forallb_forall, Forall_forall.
  split.
  - intros [Hp Hc]. split.
    + intros p Hpe. rewrite Hpe in Hp. by apply Nat.ltb_lt.
    + intros c Hin. apply Nat.ltb_lt, Hc. by apply list_elem_of_In.
  - intros [Hp Hc]. split.
    + destruct (parentNode e) as [p|]; [|done]. apply Nat.ltb_lt. by apply Hp.
    + intros c Hin. apply Nat.ltb_lt, Hc. by apply list_elem_of_In.
Qed.

Lemma dom_closed_lookup (ns : list element) (l : loc) (e : element) :
  dom_closed ns = true -> ns !! l = Some e -> links_below (length ns) e = true.
Proof.
  unfold dom_closed. rewrite forallb_forall. intros H Hl.
  apply H, list_elem_of_In, list_elem_of_lookup. eauto.
Qed.

Lemma links_below_mono (n m : nat) (e : element) :
  n <= m -> links_below n e = true -> links_below m e = true.
Proof.
  rewrite !links_below_spec. intros Hnm [Hp Hc]. split.
  - intros p Hpe. specialize (Hp p Hpe). lia.
  - eapply Forall_impl; [exact Hc|]. simpl. intros; lia.
Qed.

(** A node allocated after a closed store was built is nobody's ancestor. *)
Lemma fresh_not_ancestor (ns ns' : list element) (fuel : nat) (t : loc) :
  dom_closed ns = true ->
  (forall l, l < length ns -> ns' !! l = ns !! l) ->
  t < length ns ->
  is_ancestor ns' fuel (length ns) t = false.
Proof.
  intros Hc Hsame. revert t. induction fuel as [|fuel IH]; intros t Ht; simpl.
  - destruct (Nat.eqb_spec (length ns) t); [lia|done].
  - destruct (Nat.eqb_spec (length ns) t); [lia|].
    rewrite Hsame by done.
    destruct (ns !! t) as [e|] eqn:He; [|done].
    destruct (parentNode e) as [p|] eqn:Hp; [|done].
    apply IH.
    pose proof (dom_closed_lookup _ _ _ Hc He) as Hl.
    apply links_below_spec in Hl as [Hl _]. by apply Hl.
Qed.

Lemma ref_production (w : world) (t : loc) (te : element) :
  JS.strict_eq_string (NODE_ENV w) "development" = false ->
  nodes w !! t = Some te ->
  dom_closed (nodes w) = true ->
  ref (Some t) w = Done tt (World (NODE_ENV w) (mounted t (nodes w)) (props w)).
Proof.
  intros Henv Ht Hc. destruct w as [env ns ps]; simpl in *.
  assert (t < length ns) as Hlt by (by eapply lookup_lt_Some).
  unfold ref, process_env_NODE_ENV. run. simpl.
  rewrite Henv. unfold createElement, set_nodes; simpl.
  unfold assign, setAttribute.
  repeat (rewrite update_node_snoc; simpl).
  unfold appendChild; simpl.
  rewrite lookup_app_l by done. rewrite Ht, lookup_snoc.
  rewrite (fresh_not_ancestor ns); [|done| |done].
  - simpl. unfold set_nodes; simpl.
    rewrite alter_snoc, alter_app_l by done. done.
  - intros l Hl. by rewrite lookup_app_l.
Qed.

Lemma mounted_length (t : loc) (ns : list element) :
  length (mounted t ns) = S (length ns).
Proof. unfold mounted. rewrite length_app, length_alter. simpl. lia. Qed.

Lemma mounted_new (t : loc) (ns : list element) :
  mounted t ns !! length ns = Some (utterances_script t).
Proof.
  pose proof (lookup_snoc (alter (push_child (length ns)) t ns) (utterances_script t)) as H.
  by rewrite length_alter in H.
Qed.

Lemma mounted_target (t : loc) (ns : list element) (te : element) :
  ns !! t = Some te ->
  mounted t ns !! t = Some (push_child (length ns) te).
Proof.
  intros Ht. unfold mounted.
  rewrite lookup_app_l by (rewrite length_alter; by eapply lookup_lt_Some).
  by rewrite list_lookup_alter_eq, Ht.
Qed.

Lemma mounted_frame (t l : loc) (ns : list element) :
  l <> t -> l < length ns -> mounted t ns !! l = ns !! l.
Proof.
  intros Hne Hl. unfold mounted.
  rewrite lookup_app_l by (by rewrite length_alter).
  by rewrite list_lookup_alter_ne.
Qed.

Lemma mounted_closed (t : loc) (ns : list element) :
  dom_closed ns = true -> t < length ns -> dom_closed (mounted t ns) = true.
Proof.
  intros Hc Ht. unfold dom_closed. rewrite mounted_length.
  unfold mounted. rewrite forallb_app. apply andb_true_iff. split.
  - apply forallb_forall. intros x Hin.
    apply list_elem_of_In, list_elem_of_lookup in Hin as [i Hi].
    rewrite list_lookup_alter in Hi. destruct (decide (t = i)) as [->|Hne].
    + destruct (ns !! i) as [e|] eqn:He; [|done]. simpl in Hi.
      injection Hi as <-.
      pose proof (dom_closed_lookup _ _ _ Hc He) as Hl.
      apply links_below_spec in Hl as [Hp Hcs].
      apply links_below_spec. split.
      * intros p Hpe. specialize (Hp p Hpe). lia.
      * simpl. apply Forall_app. split.
        -- eapply Forall_impl; [exact Hcs|]. simpl. intros; lia.
        -- apply Forall_singleton. lia.
    + eapply links_below_mono; [|by eapply dom_closed_lookup]. lia.
  - simpl. rewrite andb_true_r. apply links_below_spec. split.
    + simpl. intros p [= <-]. lia.
    + simpl. constructor.
Qed.

Lemma mounted_n_length (n : nat) (t : loc) (ns : list element) :
  length (mounted_n n t ns) = length ns + n.
Proof.
  revert ns. induction n as [|n IH]; intros ns; simpl; [lia|].
  rewrite IH, mounted_length. lia.
Qed.

Lemma mounted_n_closed (n : nat) (t : loc) (ns : list element) :
  dom_closed ns = true -> t < length ns -> dom_closed (mounted_n n t ns) = true.
Proof.
  revert ns. induction n as [|n IH]; intros ns Hc Ht; simpl; [done|].
  apply IH; [by apply mounted_closed|]. rewrite mounted_length. lia.
Qed.

Lemma mounted_n_frame (n : nat) (t l : loc) (ns : list element) :
  l <> t -> l < length ns -> mounted_n n t ns !! l = ns !! l.
Proof.
  revert ns. induction n as [|n IH]; intros ns Hne Hl; simpl; [done|].
  rewrite IH; [by apply mounted_frame|done|]. rewrite mounted_length. lia.
Qed.

Lemma mounted_n_target (n : nat) (t : loc) (ns : list element) (te : element) :
  ns !! t = Some te ->
  mounted_n n t ns !! t = Some (push_children (seq (length ns) n) te).
Proof.
  revert ns te. induction n as [|n IH]; intros ns te Ht; simpl.
  - rewrite Ht. destruct te; unfold push_children; simpl. by rewrite app_nil_r.
  - rewrite (IH _ _ (mounted_target _ _ _ Ht)), mounted_length.
    unfold push_children, push_child; simpl. by rewrite <- app_assoc.
Qed.

Lemma mounted_n_new (n : nat) (t : loc) (ns : list element) (i : nat) :
  t < length ns -> i < n ->
  mounted_n n t ns !! (length ns + i) = Some (utterances_script t).
Proof.
  revert ns i. induction n as [|n IH]; intros ns i Ht Hi; simpl; [lia|].
  destruct i as [|i].
  - rewrite Nat.add_0_r, mounted_n_frame; [apply mounted_new|lia|].
    rewrite mounted_length. lia.
  - replace (length ns + S i) with (length (mounted t ns) + i)
      by (rewrite mounted_length; lia).
    apply IH; [rewrite mounted_length|]; lia.
Qed.

Lemma mounts_production (n : nat) (w : world) (t : loc) (te : element) :
  JS.strict_eq_string (NODE_ENV w) "development" = false ->
  nodes w !! t = Some te ->
  dom_closed (nodes w) = true ->
  mounts n (Some t) w
  = Done tt (World (NODE_ENV w) (mounted_n n t (nodes w)) (props w)).
Proof.
  revert w te. induction n as [|n IH]; intros w te Henv Ht Hc.
  - by destruct w.
  - cbn [mounts mounted_n]. run.
    rewrite (ref_production w t te) by done.
    erewrite IH; simpl; [done|done|by apply mounted_target|].
    apply mounted_closed; [done|by eapply lookup_lt_Some].
Qed.

Lemma script_children_mounted_n (n : nat) (t : loc) (ns : list element) (te : element) :
  ns !! t = Some te ->
  dom_closed ns = true ->
  script_children (mounted_n n t ns) t
  = script_children ns t ++ seq (length ns) n.
Proof.
  intros Ht Hc. assert (t < length ns) as Hlt by (by eapply lookup_lt_Some).
  unfold script_children. rewrite (mounted_n_target n t ns te Ht), Ht. simpl.
  rewrite List.filter_app. f_equal.
  - apply filter_ext_in. intros c Hin.
    pose proof (dom_closed_lookup _ _ _ Hc Ht) as Hl.
    apply links_below_spec in Hl as [_ Hcs].
    rewrite Forall_forall in Hcs. apply list_elem_of_In, Hcs in Hin.
    unfold is_script. destruct (decide (c = t)) as [->|Hne].
    + by rewrite (mounted_n_target n t ns te Ht), Ht.
    + by rewrite mounted_n_frame.
  - apply forallb_filter_id, forallb_forall. intros c Hin.
    apply in_seq in Hin. unfold is_script.
    replace c with (length ns + (c - length ns)) by lia.
    rewrite mounted_n_new by lia. done.
Qed.
End CommentsFacts.

Section CommentsClaims.
Import Dom UtterancesComments.

(** C1. When [process.env.NODE_ENV] is ["development"], a mount of the
    comments component, whatever element (or [null]) the ref callback
    receives, returns normally and leaves the world as it was: no node is
    created, no child is appended, nothing is written. *)
Theorem development_mount_mutates_nothing (w : world) (elem : option loc) :
  NODE_ENV w = JS.VStr "development" ->
  ref elem w = Done tt w.
Proof.
  intros Henv. destruct elem as [t|]; [|done].
  unfold ref, process_env_NODE_ENV. run. by rewrite Henv.
Qed.

Lemma development_mount_mutates_nothing_witness :
  ref (Some 0) (World (JS.VStr "development") [Element "section" ∅ ∅ None []] [])
  = Done tt (World (JS.VStr "development") [Element "section" ∅ ∅ None []] []).
Proof. apply development_mount_mutates_nothing. reflexivity. Defined.

(** C2. When [process.env.NODE_ENV] is not ["development"] and the ref
    callback receives an element [t] of a document whose links are in range,
    the mount returns normally and appends exactly one node to [t]: a new
    [script] element, placed last among the children of [t], with
    [src = "https://utteranc.es/client.js"], [async = true],
    [crossOrigin = "anonymous"] and the attributes [repo = lukas-tr/blog],
    [issue-term = title], [label = comment], [theme = github-light].  Every
    other node, the environment and the props are untouched. *)
Theorem production_mount_appends_one_script (w : world) (t : loc) (te : element) :
  JS.strict_eq_string (NODE_ENV w) "development" = false ->
  nodes w !! t = Some te ->
  dom_closed (nodes w) = true ->
  exists w' se,
    ref (Some t) w = Done tt w' /\
    NODE_ENV w' = NODE_ENV w /\ props w' = props w /\
    length (nodes w') = S (length (nodes w)) /\
    dom_closed (nodes w') = true /\
    nodes w' !! length (nodes w) = Some se /\
    nodes w' !! t = Some (push_child (length (nodes w)) te) /\
    (forall l, l <> t -> l < length (nodes w) -> nodes w' !! l = nodes w !! l) /\
    script_children (nodes w') t = script_children (nodes w) t ++ [length (nodes w)] /\
    localName se = "script" /\
    parentNode se = Some t /\
    childNodes se = [] /\
    properties se !! "src" = Some (JS.VStr "https://utteranc.es/client.js") /\
    properties se !! "async" = Some (JS.VBool true) /\
    properties se !! "crossOrigin" = Some (JS.VStr "anonymous") /\
    attributes se !! "repo" = Some "lukas-tr/blog" /\
    attributes se !! "issue-term" = Some "title" /\
    attributes se !! "label" = Some "comment" /\
    attributes se !! "theme" = Some "github-light" /\
    size (properties se) = 3 /\ size (attributes se) = 4.
Proof.
  intros Henv Ht Hc.
  exists (World (NODE_ENV w) (mounted t (nodes w)) (props w)), (utterances_script t).
  split; [by apply (ref_production w t te)|]. simpl.
  split; [done|]. split; [done|].
  split; [apply mounted_length|].
  split; [apply mounted_closed; [done|by eapply lookup_lt_Some]|].
  split; [apply mounted_new|].
  split; [by apply mounted_target|].
  split; [intros l Hne Hl; by apply mounted_frame|].
  split; [exact (script_children_mounted_n 1 t (nodes w) te Ht Hc)|].
  repeat split; vm_compute; reflexivity.
Qed.

Lemma production_mount_appends_one_script_witness :
  exists w' se,
    ref (Some 0) (World (JS.VStr "production") [Element "section" ∅ ∅ None []] [])
    = Done tt w' /\
    nodes w' !! 1 = Some se /\
    nodes w' !! 0 = Some (Element "section" ∅ ∅ None [1]) /\
    localName se = "script".
Proof.
  destruct (production_mount_appends_one_script
              (World (JS.VStr "production") [Element "section" ∅ ∅ None []] [])
              0 (Element "section" ∅ ∅ None []))
    as (w' & se & Hrun & _ & _ & _ & _ & Hnew & Htarget & _ & _ & Hname & _);
    [reflexivity | reflexivity | reflexivity |].
  exists w', se. repeat split; assumption.
Defined.

(** C4. When the ref callback receives [null], the mount returns normally
    and leaves the world as it was, whatever [process.env.NODE_ENV] holds. *)
Theorem null_target_mount_is_noop (w : world) :
  ref None w = Done tt w.
Proof. reflexivity. Qed.

(** C7. In production, with an available target, nothing de-duplicates:
    [n] successive mounts onto the same target [t] return normally and leave
    [n] new script elements, each the utteranc.es script, appended in order
    after the children [t] already had; the script children of [t] are the
    former ones followed by the [n] new ones. *)
Theorem remount_reinjects (n : nat) (w : world) (t : loc) (te : element) :
  JS.strict_eq_string (NODE_ENV w) "development" = false ->
  nodes w !! t = Some te ->
  dom_closed (nodes w) = true ->
  exists w',
    mounts n (Some t) w = Done tt w' /\
    length (nodes w') = length (nodes w) + n /\
    dom_closed (nodes w') = true /\
    nodes w' !! t = Some (push_children (seq (length (nodes w)) n) te) /\
    (forall i, i < n -> nodes w' !! (length (nodes w) + i) = Some (utterances_script t)) /\
    script_children (nodes w') t = script_children (nodes w) t ++ seq (length (nodes w)) n /\
    length (script_children (nodes w') t) = length (script_children (nodes w) t) + n.
Proof.
  intros Henv Ht Hc.
  assert (t < length (nodes w)) as Hlt by (by eapply lookup_lt_Some).
  exists (World (NODE_ENV w) (mounted_n n t (nodes w)) (props w)).
  split; [by apply (mounts_production n w t te)|]. simpl.
  split; [apply mounted_n_length|].
  split; [by apply mounted_n_closed|].
  split; [by apply mounted_n_target|].
  split; [intros i Hi; by apply mounted_n_new|].
  rewrite (script_children_mounted_n n t (nodes w) te Ht Hc).
  split; [done|]. by rewrite length_app, length_seq.
Qed.

Lemma remount_reinjects_witness :
  exists w',
    mounts 3 (Some 0) (World (JS.VStr "production") [Element "section" ∅ ∅ None []] [])
    = Done tt w' /\
    script_children (nodes w') 0 = [1; 2; 3].
Proof.
  destruct (remount_reinjects 3
              (World (JS.VStr "production") [Element "section" ∅ ∅ None []] [])
              0 (Element "section" ∅ ∅ None []))
    as (w' & Hrun & _ & _ & _ & _ & Hscripts & _);
    [reflexivity | reflexivity | reflexivity |].
  exists w'. split; assumption.
Defined.

End CommentsClaims.

(** ** The page shell *)

Section ConversionFacts.

Lemma to_primitive_cases (v : JS.value) :
  (JS.to_primitive v = Some v /\ exists s, JS.to_string v = Some s) \/
  (exists s, JS.to_string v = Some s /\ JS.to_primitive v = Some (JS.VStr s)) \/
  (JS.to_string v = None /\ JS.to_primitive v = None /\ JS.truthy v = true).
Proof.
  destruct v as [| |b|n| |s|items|fields];
    try (left; split; [reflexivity|]; try destruct b; by eexists).
  - unfold JS.to_primitive.
    destruct (JS.to_string (JS.VArr items)) as [s|];
      [right; left; by exists s|right; right; done].
  - unfold JS.to_primitive.
    destruct (JS.to_string (JS.VObj fields)) as [s|];
      [right; left; by exists s|right; right; done].
Qed.

Lemma to_primitive_text (v p : JS.value) :
  JS.to_primitive v = Some p -> JS.to_string p = JS.to_string v.
Proof.
  destruct (to_primitive_cases v) as [[Hp _]|[(s & Hs & Hp)|(_ & Hp & _)]];
    rewrite Hp; [by intros [= <-]| |done].
  intros [= <-]. by rewrite Hs.
Qed.

Lemma to_primitive_none (v : JS.value) :
  JS.to_primitive v = None -> JS.to_string v = None.
Proof.
  destruct (to_primitive_cases v) as [[Hp _]|[(s & Hs & Hp)|(Hs & _ & _)]];
    rewrite ?Hp; done.
Qed.

Lemma converts_text (v : JS.value) :
  JS.converts v = true -> exists s, JS.to_string v = Some s.
Proof.
  unfold JS.converts.
  destruct (to_primitive_cases v) as [[_ Hs]|[(s & Hs & _)|(_ & Hp & _)]];
    [done|by exists s|by rewrite Hp].
Qed.

Lemma text_converts (v : JS.value) (s : string) :
  JS.to_string v = Some s -> JS.converts v = true.
Proof.
  intros Hs. unfold JS.converts.
  destruct (JS.to_primitive v) eqn:Hp; [done|].
  apply to_primitive_none in Hp. congruence.
Qed.

Lemma not_converts (v : JS.value) :
  JS.converts v = false -> JS.to_primitive v = None /\ JS.truthy v = true.
Proof.
  unfold JS.converts.
  destruct (to_primitive_cases v) as [[Hp _]|[(s & _ & Hp)|(_ & Hp & Ht)]];
    rewrite Hp; done.
Qed.

Lemma add_string_l (a : string) (v : JS.value) :
  JS.add (JS.VStr a) v = (fun s => JS.VStr (a +:+ s)) <$> JS.to_string v.
Proof.
  unfold JS.add. simpl.
  destruct (JS.to_primitive v) as [p|] eqn:Hp; simpl.
  - rewrite (to_primitive_text v p Hp). by destruct (JS.to_string v).
  - by rewrite (to_primitive_none v Hp).
Qed.


Lemma add_converts (a b : JS.value) :
  JS.converts a = true -> JS.converts b = true ->
  exists v, JS.add a b = Some v /\ JS.converts v = true.
Proof.
  intros Ha Hb. destruct (converts_text a Ha) as [sa Hsa].
  destruct (converts_text b Hb) as [sb Hsb]. unfold JS.converts in Ha, Hb.
  unfold JS.add.
  destruct (JS.to_primitive a) as [pa|] eqn:Hpa; [|done].
  destruct (JS.to_primitive b) as [pb|] eqn:Hpb; [|done]. simpl.
  rewrite (to_primitive_text a pa Hpa), (to_primitive_text b pb Hpb), Hsa, Hsb. simpl.
  destruct (JS.is_string pa || JS.is_string pb); [by eauto|].
  destruct (JS.to_number pa), (JS.to_number pb); by eauto.
Qed.

Lemma add_fails_l (a b : JS.value) : JS.converts a = false -> JS.add a b = None.
Proof. intros Ha. unfold JS.add. by rewrite (proj1 (not_converts a Ha)). Qed.

Lemma add_fails_r (a b : JS.value) : JS.converts b = false -> JS.add a b = None.
Proof.
  intros Hb. unfold JS.add. rewrite (proj1 (not_converts b Hb)).
  by destruct (JS.to_primitive a).
Qed.


End ConversionFacts.

Section BodyFacts.
Import Dom Body.

Variable safePrefix : string -> JS.value.

Lemma render_spec (w : world) :
  render safePrefix w
  = match markup safePrefix (props w) with
    | Some m => Done m w
    | None => Thrown "TypeError" w
    end.
Proof.
  unfold render, markup, title_of, class_of, get_in_props, this_props, plus. run.
  cbn -[JS.add JS.get].
  destruct (JS.truthy (JS.get (JS.VObj (props w)) p_frontmatter_title));
    cbn -[JS.add JS.get].
  all: repeat (match goal with
               | |- context [JS.add ?a ?b] => destruct (JS.add a b); cbn -[JS.add JS.get]
               end); reflexivity.
Qed.

Section Shell.
Variables description title author image url className : JS.value.
Variable ps : list (string * JS.value).

Let tree : node :=
  shell safePrefix description title author image url className ps.

Lemma shell_titles : document_titles tree = [title].
Proof. reflexivity. Qed.

Lemma shell_title_tags : title_tags tree = [title; title; title].
Proof. reflexivity. Qed.


Lemma shell_meta_title :
  meta_contents "og:title" tree = [title] /\
  meta_contents "twitter:title" tree = [title].
Proof. repeat split. Qed.



Lemma shell_scripts :
  helmet_scripts tree = [JS.JSON_stringify (website_descriptor url)].
Proof. reflexivity. Qed.

Lemma shell_page_class : page_class tree = [className].
Proof. reflexivity. Qed.
End Shell.

Lemma render_with (w : world) (t c : JS.value) :
  title_of (props w) = Some t ->
  class_of (props w) = Some c ->
  render safePrefix w = Done (tree_of safePrefix (props w) t c) w.
Proof. intros Ht Hc. rewrite render_spec. unfold markup. by rewrite Ht, Hc. Qed.

Lemma title_of_converts (ps : list (string * JS.value)) :
  title_converts ps = true -> exists t, title_of ps = Some t.
Proof.
  unfold title_converts, title_of. intros H.
  apply andb_true_iff in H as [Hpage Hsite].
  destruct (JS.truthy (JS.get (JS.VObj ps) p_frontmatter_title)); cbn -[JS.add JS.get].
  - destruct (add_converts _ (JS.VStr " - ") Hpage eq_refl) as (p & -> & Hp).
    cbn -[JS.add JS.get].
    destruct (add_converts _ _ Hp Hsite) as (t & -> & _). eauto.
  - destruct (add_converts _ _ Hpage Hsite) as (t & -> & _). eauto.
Qed.

Lemma title_of_fails (ps : list (string * JS.value)) :
  title_converts ps = false -> title_of ps = None.
Proof.
  unfold title_converts, title_of. intros H.
  apply andb_false_iff in H as [Hpage|Hsite].
  - destruct (not_converts _ Hpage) as [_ ->].
    by rewrite (add_fails_l _ (JS.VStr " - ") Hpage).
  - destruct (JS.truthy (JS.get (JS.VObj ps) p_frontmatter_title)).
    + destruct (JS.add _ (JS.VStr " - ")); cbn -[JS.add JS.get]; [|done].
      by apply add_fails_r.
    + cbn -[JS.add JS.get]. by apply add_fails_r.
Qed.

Lemma string_append_assoc (a b c : string) :
  (a +:+ b) +:+ c = a +:+ (b +:+ c).
Proof.
  induction a as [|x a IH]; [done|].
  change (String x ((a +:+ b) +:+ c) = String x (a +:+ (b +:+ c))).
  by rewrite IH.
Qed.

Lemma class_of_text (ps : list (string * JS.value)) (a b : string) :
  JS.to_string (JS.get (JS.VObj ps) p_layout_style) = Some a ->
  JS.to_string (JS.get (JS.VObj ps) p_palette) = Some b ->
  class_of ps = Some (JS.VStr ("site style-" +:+ a +:+ " palette-" +:+ b)).
Proof.
  intros Ha Hb. unfold class_of.
  rewrite add_string_l, Ha. cbn -[JS.add JS.get].
  rewrite add_string_l. cbn -[JS.add JS.get].
  rewrite add_string_l, Hb. cbn -[JS.add JS.get].
  by rewrite !string_append_assoc.
Qed.

Lemma class_of_converts (ps : list (string * JS.value)) :
  wrapper_converts ps = true -> exists c, class_of ps = Some c.
Proof.
  unfold wrapper_converts. intros H. apply andb_true_iff in H as [Hl Hp].
  destruct (converts_text _ Hl) as [a Ha]. destruct (converts_text _ Hp) as [b Hb].
  rewrite (class_of_text ps a b Ha Hb). eauto.
Qed.

Lemma class_of_fails (ps : list (string * JS.value)) :
  wrapper_converts ps = false -> class_of ps = None.
Proof.
  unfold wrapper_converts, class_of. intros H.
  apply andb_false_iff in H as [Hl|Hp].
  - by rewrite (add_fails_r (JS.VStr "site style-") _ Hl).
  - destruct (JS.add (JS.VStr "site style-") _); cbn -[JS.add JS.get]; [|done].
    destruct (JS.add _ (JS.VStr " palette-")); cbn -[JS.add JS.get]; [|done].
    by apply add_fails_r.
Qed.

Lemma render_returns (w : world) :
  convertible_context (props w) = true ->
  exists t c,
    title_of (props w) = Some t /\ class_of (props w) = Some c /\
    render safePrefix w = Done (tree_of safePrefix (props w) t c) w.
Proof.
  unfold convertible_context. intros H. apply andb_true_iff in H as [Ht Hc].
  destruct (title_of_converts _ Ht) as [t Htitle].
  destruct (class_of_converts _ Hc) as [c Hclass].
  exists t, c. split; [done|]. split; [done|]. by apply render_with.
Qed.

Lemma render_throws (w : world) :
  convertible_context (props w) = false ->
  render safePrefix w = Thrown "TypeError" w.
Proof.
  unfold convertible_context. intros H. rewrite render_spec. unfold markup.
  apply andb_false_iff in H as [Ht|Hc].
  - by rewrite (title_of_fails _ Ht).
  - rewrite (class_of_fails _ Hc). by destruct (title_of (props w)).
Qed.

Lemma string_length_append (a b : string) :
  String.length (a +:+ b) = String.length a + String.length b.
Proof. induction a as [|c a IH]; simpl; [done|]. by rewrite IH. Qed.

Lemma prefixed_differs (s : string) : JS.VStr ("undefined" +:+ s) <> JS.VStr s.
Proof.
  intros [= H]. apply (f_equal String.length) in H.
  rewrite string_length_append in H. simpl in H. lia.
Qed.

Lemma title_without_page_title (ps : list (string * JS.value)) (p : JS.value) :
  JS.get (JS.VObj ps) p_frontmatter_title = JS.VUndefined ->
  JS.to_primitive (JS.get (JS.VObj ps) p_title) = Some p ->
  title_of ps
  = Some (match p with
          | JS.VStr s => JS.VStr ("undefined" +:+ s)
          | _ => JS.VNaN
          end).
Proof.
  unfold title_of. intros -> Hp. cbn -[JS.add JS.get].
  unfold JS.add. rewrite Hp. cbn -[JS.get].
  destruct (to_primitive_cases (JS.get (JS.VObj ps) p_title))
    as [[Hq _]|[(s & _ & Hq)|(_ & Hq & _)]]; rewrite Hq in Hp; [| |done].
  - injection Hp as <-. by destruct (JS.get (JS.VObj ps) p_title) as [| |[]| | | | |].
  - by injection Hp as <-.
Qed.


End BodyFacts.

Section BodyClaims.
Import Dom Body.




(** C5. The page shell is a function of its context: two renders whose
    props are equal end the same way, whatever else differs between the two
    worlds.  Either both return the same tree (head tags, JSON-LD
    descriptor, wrapper class names) or both throw the same [TypeError], the
    latter exactly when a concatenated value does not convert to a
    primitive; and each render leaves its world (environment, document,
    props) as it was. *)
Theorem render_is_pure (safePrefix : string -> JS.value) (w1 w2 : world) :
  props w1 = props w2 ->
  (convertible_context (props w1) = true ->
   exists m,
     render safePrefix w1 = Done m w1 /\
     render safePrefix w2 = Done m w2) /\
  (convertible_context (props w1) = false ->
   render safePrefix w1 = Thrown "TypeError" w1 /\
   render safePrefix w2 = Thrown "TypeError" w2).
Proof.
  intros Hps. split; intros Hconv.
  - destruct (render_returns safePrefix w1 Hconv) as (t & c & Ht & Hc & Hrun).
    eexists. split; [exact Hrun|]. rewrite Hps in *. by apply render_with.
  - split; [by apply render_throws|]. apply render_throws. by rewrite <- Hps.
Qed.

Lemma render_is_pure_witness :
  exists m,
    render JS.VStr (World (JS.VStr "production") [] untitled_page)
    = Done m (World (JS.VStr "production") [] untitled_page) /\
    render JS.VStr (World (JS.VStr "development") [Element "section" ∅ ∅ None []] untitled_page)
    = Done m (World (JS.VStr "development") [Element "section" ∅ ∅ None []] untitled_page).
Proof.
  apply (proj1 (render_is_pure JS.VStr
                  (World (JS.VStr "production") [] untitled_page)
                  (World (JS.VStr "development") [Element "section" ∅ ∅ None []] untitled_page)
                  eq_refl)).
  reflexivity.
Defined.

(** C8. However a render of the page shell ends, with a tree or with the
    [TypeError] of a failed conversion, it leaves the props (site metadata
    and frontmatter included) exactly as they were; and it ends with a tree
    whenever the concatenated values convert to primitives. *)
Theorem render_leaves_context (safePrefix : string -> JS.value) (w : world) :
  (exists w',
     ((exists m, render safePrefix w = Done m w') \/
      render safePrefix w = Thrown "TypeError" w') /\
     props w' = props w) /\
  (convertible_context (props w) = true ->
   exists m, render safePrefix w = Done m w).
Proof.
  split.
  - exists w. split; [|done].
    destruct (convertible_context (props w)) eqn:Hconv.
    + destruct (render_returns safePrefix w Hconv) as (t & c & _ & _ & Hrun).
      left. eauto.
    + right. by apply render_throws.
  - intros Hconv.
    destruct (render_returns safePrefix w Hconv) as (t & c & _ & _ & Hrun). eauto.
Qed.

(** C9, as stated, fails when the site title is present but not text: on a
    page without title of a site whose title is the number [5], the
    document title is not [undefined] followed by anything, but [NaN]. *)
Lemma numeric_site_title_gives_NaN :
  ~ (forall (safePrefix : string -> JS.value) (w : world) (m : node) (w' : world),
       JS.get (JS.VObj (props w)) p_frontmatter_title = JS.VUndefined ->
       JS.get (JS.VObj (props w)) p_title <> JS.VUndefined ->
       render safePrefix w = Done m w' ->
       exists s, document_titles m = [JS.VStr ("undefined" +:+ s)]).
Proof.
  intros H.
  destruct (H JS.VStr (World JS.VUndefined [] numbered_site) _ _
              eq_refl ltac:(discriminate) eq_refl) as [s Hs].
  discriminate Hs.
Qed.

(** C9, amended.  When the frontmatter has no title, the site title (its
    numbers, if any, being safe integers) converts to the primitive [p], and
    the wrapper's layout style and palette convert too, rendering returns a
    tree whose document title (and [og:title] and [twitter:title] metas) is:
    the text [undefined] followed by [s], which is never [s] alone, when [p]
    is the string [s] (the site title is [s], or an array or object whose
    text is [s]); and [NaN] when [p] is not a string (the site title is
    [null], a boolean, a number or absent). *)
Theorem missing_page_title_yields_undefined_prefix
    (safePrefix : string -> JS.value) (w : world) (p : JS.value) :
  JS.get (JS.VObj (props w)) p_frontmatter_title = JS.VUndefined ->
  JS.to_primitive (JS.get (JS.VObj (props w)) p_title) = Some p ->
  JS.safe (JS.get (JS.VObj (props w)) p_title) = true ->
  wrapper_converts (props w) = true ->
  exists m,
    render safePrefix w = Done m w /\
    let shown := match p with
                 | JS.VStr s => JS.VStr ("undefined" +:+ s)
                 | _ => JS.VNaN
                 end in
    document_titles m = [shown] /\
    meta_contents "og:title" m = [shown] /\
    meta_contents "twitter:title" m = [shown] /\
    (forall s, p = JS.VStr s -> shown = JS.VStr ("undefined" +:+ s) /\ shown <> JS.VStr s).
Proof.
  intros Hpage Hsite _ Hwrap.
  destruct (class_of_converts _ Hwrap) as [c Hc].
  pose proof (title_without_page_title _ _ Hpage Hsite) as Ht.
  eexists. split; [exact (render_with safePrefix w _ c Ht Hc)|]. unfold tree_of.
  cbv zeta.
  split; [apply shell_titles|].
  split; [apply shell_meta_title|].
  split; [apply shell_meta_title|].
  intros s ->. split; [done|apply prefixed_differs].
Qed.

Lemma missing_page_title_yields_undefined_prefix_witness :
  exists m,
    render JS.VStr (World JS.VUndefined [] untitled_page)
    = Done m (World JS.VUndefined [] untitled_page) /\
    document_titles m = [JS.VStr "undefinedBlog"].
Proof.
  destruct (missing_page_title_yields_undefined_prefix JS.VStr
              (World JS.VUndefined [] untitled_page) (JS.VStr "Blog")
              eq_refl eq_refl eq_refl eq_refl)
    as (m & Hrun & Htitle & _).
  exists m. split; assumption.
Defined.

End BodyClaims.

(** ** The plugin manifest *)

Section ManifestClaims.
Import GatsbyConfig.

Variable __dirname : string.
Variable path_resolve : string -> string.
Variable site_metadata : JS.value.
Variable menus : JS.value.

Let exports : cfg := module_exports __dirname path_resolve site_metadata menus.

(** C6. Whatever the directory, the working directory and the required
    JSON files hold, the manifest declares the same nine plugin entries in
    the same order, no name twice, and the markdown transformer
    ([gatsby-transformer-remark], seventh) comes before the page creator
    ([gatsby-remark-page-creator], eighth). *)
Theorem manifest_order_is_fixed :
  plugin_names exports
  = [ Some "gatsby-plugin-sitemap";
      Some "gatsby-plugin-robots-txt";
      Some "gatsby-plugin-react-helmet";
      Some "gatsby-source-data";
      Some "gatsby-source-filesystem";
      Some "gatsby-plugin-stackbit-static-sass";
      Some "gatsby-transformer-remark";
      Some "gatsby-remark-page-creator";
      Some "@stackbit/gatsby-plugin-menus" ] /\
  NoDup (plugin_names exports) /\
  exists i j,
    position "gatsby-transformer-remark" (plugin_names exports) = Some i /\
    position "gatsby-remark-page-creator" (plugin_names exports) = Some j /\
    i < j.
Proof.
  split; [reflexivity|]. split.
  - apply (bool_decide_unpack _). vm_compute. reflexivity.
  - exists 6, 7. repeat split. lia.
Qed.

(** C10. The sitemap entry's only option is [exclude], the one-element list
    [["/admin"]]; the robots entry's only option is [policy], a list of one
    rule with user agent ["*"] and allow ["/"]. *)
Theorem sitemap_and_robots_options :
  find_plugin "gatsby-plugin-sitemap" exports
  = Some (CObj [("resolve", CStr "gatsby-plugin-sitemap");
                ("options", CObj [("exclude", CArr [CStr "/admin"])])]) /\
  find_plugin "gatsby-plugin-sitemap" exports ≫= entry_option "exclude"
  = Some (CArr [CStr "/admin"]) /\
  find_plugin "gatsby-plugin-robots-txt" exports
  = Some (CObj [("resolve", CStr "gatsby-plugin-robots-txt");
                ("options",
                 CObj [("policy", CArr [CObj [("userAgent", CStr "*");
                                              ("allow", CStr "/")]])])]) /\
  find_plugin "gatsby-plugin-robots-txt" exports ≫= entry_option "policy"
  = Some (CArr [CObj [("userAgent", CStr "*"); ("allow", CStr "/")]]).
Proof. repeat split. Qed.

End ManifestClaims.

(** * Further properties *)

(** ** The page title *)

Section TitleFacts.
Import Dom Body.

Variable safePrefix : string -> JS.value.

(** X1. When the page title is a non-empty string [t], the site title is a
    string [s], and the wrapper's style and palette convert to primitives,
    the document title and the [og:title] and [twitter:title] metas all
    read [t - s]. *)
Theorem title_joins_page_and_site (w : world) (t s : string) :
  JS.get (JS.VObj (props w)) p_frontmatter_title = JS.VStr t ->
  t <> EmptyString ->
  JS.get (JS.VObj (props w)) p_title = JS.VStr s ->
  wrapper_converts (props w) = true ->
  exists m,
    render safePrefix w = Done m w /\
    title_tags m = [JS.VStr (t +:+ " - " +:+ s);
                    JS.VStr (t +:+ " - " +:+ s);
                    JS.VStr (t +:+ " - " +:+ s)].
Proof.
  intros Hpage Ht Hsite Hwrap.
  destruct (class_of_converts _ Hwrap) as [c Hc].
  assert (title_of (props w) = Some (JS.VStr (t +:+ " - " +:+ s))) as Htitle.
  { unfold title_of. rewrite Hpage, Hsite. unfold JS.truthy.
    destruct (String.eqb_spec t EmptyString) as [|_]; [done|].
    cbn -[JS.add]. rewrite add_string_l. cbn -[JS.add].
    rewrite add_string_l. cbn. by rewrite string_append_assoc. }
  eexists. split; [exact (render_with safePrefix w _ c Htitle Hc)|].
  apply shell_title_tags.
Qed.


(** X3. When neither the page nor the site has a title, and the wrapper's
    style and palette convert to primitives, the title is not blank either:
    adding [undefined] to [undefined] gives the number [NaN]. *)
Theorem title_of_untitled_site_and_page_is_NaN (w : world) :
  JS.get (JS.VObj (props w)) p_frontmatter_title = JS.VUndefined ->
  JS.get (JS.VObj (props w)) p_title = JS.VUndefined ->
  wrapper_converts (props w) = true ->
  exists m,
    render safePrefix w = Done m w /\
    title_tags m = [JS.VNaN; JS.VNaN; JS.VNaN] /\
    ~ blank JS.VNaN.
Proof.
  intros Hpage Hsite Hwrap.
  destruct (class_of_converts _ Hwrap) as [c Hc].
  assert (title_of (props w) = Some JS.VNaN) as Htitle.
  { unfold title_of. by rewrite Hpage, Hsite. }
  eexists. split; [exact (render_with safePrefix w _ c Htitle Hc)|].
  split; [apply shell_title_tags|]. by intros [?|?].
Qed.

End TitleFacts.

Lemma title_joins_page_and_site_witness :
  exists m,
    Body.render JS.VStr (Dom.World JS.VUndefined [] Body.full_page)
    = Dom.Done m (Dom.World JS.VUndefined [] Body.full_page) /\
    Body.title_tags m
    = [JS.VStr "Post - Blog"; JS.VStr "Post - Blog"; JS.VStr "Post - Blog"].
Proof.
  apply (title_joins_page_and_site JS.VStr
           (Dom.World JS.VUndefined [] Body.full_page) "Post" "Blog");
    [reflexivity | discriminate | reflexivity | reflexivity].
Defined.


Lemma title_of_untitled_site_and_page_is_NaN_witness :
  exists m,
    Body.render JS.VStr (Dom.World JS.VUndefined [] Body.contextless_page)
    = Dom.Done m (Dom.World JS.VUndefined [] Body.contextless_page) /\
    Body.title_tags m = [JS.VNaN; JS.VNaN; JS.VNaN].
Proof.
  destruct (title_of_untitled_site_and_page_is_NaN JS.VStr
              (Dom.World JS.VUndefined [] Body.contextless_page))
    as (m & Hrun & Htags & _); [reflexivity | reflexivity | reflexivity |].
  exists m. split; [exact Hrun | exact Htags].
Defined.

(** ** The rest of the head and the wrapper *)

Section ShellFacts.
Import Dom Body.

Variable safePrefix : string -> JS.value.

(** X4. When the two titles convert to primitives and the configured
    layout style and palette have the texts [a] and [b] (their numbers, if
    any, being safe integers), the class of the [#page] wrapper is the
    string [site style-a palette-b].  An absent style or palette has the
    text [undefined]. *)
Theorem wrapper_class_is_text (w : world) (a b : string) :
  title_converts (props w) = true ->
  JS.to_string (JS.get (JS.VObj (props w)) p_layout_style) = Some a ->
  JS.to_string (JS.get (JS.VObj (props w)) p_palette) = Some b ->
  JS.safe (JS.get (JS.VObj (props w)) p_layout_style) = true ->
  JS.safe (JS.get (JS.VObj (props w)) p_palette) = true ->
  exists m,
    render safePrefix w = Done m w /\
    page_class m = [JS.VStr ("site style-" +:+ a +:+ " palette-" +:+ b)] /\
    (JS.get (JS.VObj (props w)) p_layout_style = JS.VUndefined -> a = "undefined") /\
    (JS.get (JS.VObj (props w)) p_palette = JS.VUndefined -> b = "undefined").
Proof.
  intros Htitle Ha Hb _ _.
  destruct (title_of_converts _ Htitle) as [t Ht].
  eexists. split; [exact (render_with safePrefix w t _ Ht (class_of_text _ a b Ha Hb))|].
  split; [apply shell_page_class|].
  split; intros Hu; rewrite Hu in *; simpl in *; congruence.
Qed.

(** X5. Whenever the concatenated values convert to primitives, the tags
    that repeat a value agree: the document title and the two title metas
    carry one value, the three description metas one value, the two image
    metas one value. *)
Theorem repeated_tags_agree (w : world) :
  convertible_context (props w) = true ->
  exists m title description image,
    render safePrefix w = Done m w /\
    title_tags m = [title; title; title] /\
    meta_contents "description" m = [description] /\
    meta_contents "og:description" m = [description] /\
    meta_contents "twitter:description" m = [description] /\
    meta_contents "og:image" m = [image] /\
    meta_contents "twitter:image" m = [image].
Proof.
  intros Hconv.
  destruct (render_returns safePrefix w Hconv) as (t & c & _ & _ & Hrun).
  eexists. exists t, (JS.get (JS.VObj (props w)) p_description),
    (JS.get (JS.VObj (props w)) p_image).
  split; [exact Hrun|]. repeat split.
Qed.

(** X6. No missing field removes a tag.  Whenever the concatenated values
    convert to primitives, the tree holds one [Helmet] with one [<title>],
    thirteen [<meta>] and four [<link>] elements, two of them stylesheets
    resolved by [safePrefix]; the [og:type] meta is [website] and the
    [twitter:card] meta is [summary]. *)
Theorem head_inventory_is_fixed (w : world) :
  convertible_context (props w) = true ->
  exists m,
    render safePrefix w = Done m w /\
    count_type "Helmet" m = 1 /\
    count_type "title" m = 1 /\
    count_type "meta" m = 13 /\
    count_type "link" m = 4 /\
    stylesheet_hrefs m
    = [JS.VStr "https://fonts.googleapis.com/css?family=Roboto:400,400i,700,700i";
       safePrefix "assets/css/main.css";
       safePrefix "assets/css/all.css"] /\
    meta_contents "og:type" m = [JS.VStr "website"] /\
    meta_contents "twitter:card" m = [JS.VStr "summary"].
Proof.
  intros Hconv.
  destruct (render_returns safePrefix w Hconv) as (t & c & _ & _ & Hrun).
  eexists. split; [exact Hrun|]. repeat split.
Qed.

Lemma escape_char_plain (c : ascii) :
  plain_char c = true -> JS.escape_char c = String c EmptyString.
Proof.
  unfold plain_char, JS.escape_char.
  intros H. apply andb_true_iff in H as [H H92]. apply andb_true_iff in H as [H32 H34].
  apply N.leb_le in H32. apply negb_true_iff in H34, H92.
  rewrite H34, H92.
  repeat (match goal with
          | |- context [N.eqb ?a ?b] =>
              destruct (N.eqb_spec a b) as [Heq|_]; [rewrite Heq in H32; lia|]
          end).
  destruct (N.ltb_spec (N_of_ascii c) 32) as [Hlt|_]; [lia|done].
Qed.

Lemma escape_plain (s : string) : plain s = true -> JS.escape s = s.
Proof.
  induction s as [|c s IH]; simpl; [done|].
  intros H. apply andb_true_iff in H as [Hc Hs].
  by rewrite (escape_char_plain c Hc), (IH Hs).
Qed.

(** X7. When the concatenated values convert to primitives and the site
    URL is a string without quotes, backslashes or control characters, the
    JSON-LD descriptor carries it verbatim as its [url] member, after
    [@context] and [@type]. *)
Theorem json_ld_carries_site_url (w : world) (u : string) :
  convertible_context (props w) = true ->
  JS.get (JS.VObj (props w)) p_siteUrl = JS.VStr u ->
  plain u = true ->
  exists m,
    render safePrefix w = Done m w /\
    helmet_scripts m = [JS.VStr (descriptor_with_url u)].
Proof.
  intros Hconv Hurl Hplain.
  destruct (render_returns safePrefix w Hconv) as (t & c & _ & _ & Hrun).
  eexists. split; [exact Hrun|]. unfold tree_of. rewrite shell_scripts, Hurl.
  unfold JS.JSON_stringify, website_descriptor, descriptor_with_url. simpl.
  change (JS.quote u)
    with (String JS.dquote (JS.escape u +:+ String JS.dquote EmptyString)).
  rewrite (escape_plain u Hplain).
  do 2 f_equal. vm_compute.
  repeat match goal with
         | |- String ?c _ = String ?c _ => apply (f_equal (String c))
         end.
  exact (string_append_assoc u (String JS.dquote EmptyString) "}").
Qed.

End ShellFacts.

Lemma wrapper_class_is_text_witness :
  exists m,
    Body.render JS.VStr (Dom.World JS.VUndefined [] Body.full_page)
    = Dom.Done m (Dom.World JS.VUndefined [] Body.full_page) /\
    Body.page_class m = [JS.VStr "site style-classic palette-blue"].
Proof.
  destruct (wrapper_class_is_text JS.VStr
              (Dom.World JS.VUndefined [] Body.full_page) "classic" "blue")
    as (m & Hrun & Hclass & _);
    [reflexivity | reflexivity | reflexivity | reflexivity | reflexivity |].
  exists m. split; [exact Hrun | exact Hclass].
Defined.

Lemma repeated_tags_agree_witness :
  exists m title,
    Body.render JS.VStr (Dom.World JS.VUndefined [] Body.full_page)
    = Dom.Done m (Dom.World JS.VUndefined [] Body.full_page) /\
    Body.title_tags m = [title; title; title].
Proof.
  destruct (repeated_tags_agree JS.VStr
              (Dom.World JS.VUndefined [] Body.full_page) eq_refl)
    as (m & title & _ & _ & Hrun & Htags & _).
  exists m, title. split; [exact Hrun | exact Htags].
Defined.

Lemma head_inventory_is_fixed_witness :
  exists m,
    Body.render JS.VStr (Dom.World JS.VUndefined [] Body.bare_page)
    = Dom.Done m (Dom.World JS.VUndefined [] Body.bare_page) /\
    Body.count_type "meta" m = 13.
Proof.
  destruct (head_inventory_is_fixed JS.VStr
              (Dom.World JS.VUndefined [] Body.bare_page) eq_refl)
    as (m & Hrun & _ & _ & Hmeta & _).
  exists m. split; [exact Hrun | exact Hmeta].
Defined.

Lemma json_ld_carries_site_url_witness :
  exists m,
    Body.render JS.VStr (Dom.World JS.VUndefined [] Body.full_page)
    = Dom.Done m (Dom.World JS.VUndefined [] Body.full_page) /\
    Body.helmet_scripts m = [JS.VStr (Body.descriptor_with_url "https://example.org")].
Proof.
  apply (json_ld_carries_site_url JS.VStr
           (Dom.World JS.VUndefined [] Body.full_page) "https://example.org");
    reflexivity.
Defined.

(** ** A page without context *)

Section ContextlessFacts.
Import Dom Body.

Variable safePrefix : string -> JS.value.

Lemma get_below_missing_root (ps : list (string * JS.value)) (k k' : string)
    (rest : list string) :
  JS.nullish (JS.get_prop (JS.VObj ps) k) = true ->
  JS.has_key (JS.VObj ps) (JS.join "." (k :: k' :: rest)) = false ->
  JS.get (JS.VObj ps) (k :: k' :: rest) = JS.VUndefined.
Proof.
  intros Hroot Hkey. unfold JS.get, JS.baseGet, JS.castPath.
  cbn [JS.nullish negb andb]. rewrite Hkey.
  cbn [JS.walk JS.nullish]. by rewrite Hroot.
Qed.

(** X8. A page rendered without a page context (the [pageContext] prop is
    missing or [null], and no prop is named by a whole dotted path) still
    renders: every metadata content is undefined, the JSON-LD descriptor has
    no [url], the title is [NaN] and the wrapper class reads
    [site style-undefined palette-undefined]. *)
Theorem render_without_page_context (w : world) :
  JS.nullish (JS.get_prop (JS.VObj (props w)) "pageContext") = true ->
  forallb (fun p => negb (JS.has_key (JS.VObj (props w)) (JS.join "." p))) read_paths = true ->
  exists m,
    render safePrefix w = Done m w /\
    title_tags m = [JS.VNaN; JS.VNaN; JS.VNaN] /\
    meta_contents "description" m = [JS.VUndefined] /\
    meta_contents "twitter:creator" m = [JS.VUndefined] /\
    meta_contents "og:image" m = [JS.VUndefined] /\
    helmet_scripts m = [JS.VStr descriptor_without_url] /\
    page_class m = [JS.VStr "site style-undefined palette-undefined"].
Proof.
  intros Hroot Hkeys.
  assert (forall p, In p read_paths -> JS.get (JS.VObj (props w)) p = JS.VUndefined)
    as Hget.
  { intros p Hp. rewrite forallb_forall in Hkeys.
    specialize (Hkeys p Hp). apply negb_true_iff in Hkeys.
    unfold read_paths in Hp. simpl in Hp.
    repeat (destruct Hp as [<-|Hp]; [by apply get_below_missing_root|]).
    destruct Hp. }
  assert (title_of (props w) = Some JS.VNaN) as Htitle.
  { unfold title_of. by rewrite !Hget by (unfold read_paths; simpl; tauto). }
  assert (class_of (props w)
          = Some (JS.VStr "site style-undefined palette-undefined")) as Hclass.
  { unfold class_of. by rewrite !Hget by (unfold read_paths; simpl; tauto). }
  eexists. split; [exact (render_with safePrefix w _ _ Htitle Hclass)|].
  unfold tree_of. rewrite !Hget by (unfold read_paths; simpl; tauto).
  repeat split.
Qed.

End ContextlessFacts.

Lemma render_without_page_context_witness :
  exists m,
    Body.render JS.VStr (Dom.World JS.VUndefined [] Body.contextless_page)
    = Dom.Done m (Dom.World JS.VUndefined [] Body.contextless_page) /\
    Body.page_class m = [JS.VStr "site style-undefined palette-undefined"].
Proof.
  destruct (render_without_page_context JS.VStr
              (Dom.World JS.VUndefined [] Body.contextless_page))
    as (m & Hrun & _ & _ & _ & _ & _ & Hclass); [reflexivity | reflexivity |].
  exists m. split; [exact Hrun | exact Hclass].
Defined.

(** ** More on the comments embed *)

Section MoreCommentsFacts.
Import Dom UtterancesComments.

Lemma strict_eq_string_true (v : JS.value) (s : string) :
  JS.strict_eq_string v s = true -> v = JS.VStr s.
Proof.
  destruct v; simpl; try discriminate.
  intros H. apply String.eqb_eq in H. by subst.
Qed.

Lemma ref_idle (w : world) (elem : option loc) :
  NODE_ENV w = JS.VStr "development" \/ elem = None ->
  ref elem w = Done tt w.
Proof.
  intros [Henv| ->]; [|done].
  destruct elem as [t|]; [|done].
  unfold ref, process_env_NODE_ENV. run. by rewrite Henv.
Qed.

Lemma mounts_idle (n : nat) (w : world) (elem : option loc) :
  NODE_ENV w = JS.VStr "development" \/ elem = None ->
  mounts n elem w = Done tt w.
Proof.
  intros H. induction n as [|n IH]; [done|].
  cbn [mounts]. run. by rewrite (ref_idle w elem H).
Qed.

(** X9. While developing, or without a node, remounting any number of
    times still does nothing. *)
Theorem idle_mounts_do_nothing (n : nat) (w : world) (elem : option loc) :
  NODE_ENV w = JS.VStr "development" \/ elem = None ->
  mounts n elem w = Done tt w.
Proof. apply mounts_idle. Qed.

Lemma preserved_refl (e : element) : preserved e e.
Proof. by repeat split. Qed.

Lemma preserved_push_children (cs : list loc) (e : element) :
  preserved e (push_children cs e).
Proof. repeat split. simpl. by apply prefix_app_r. Qed.

(** X10. On a document whose links are in range, and for a target that is
    [null] or one of its nodes, no number of mounts throws, whatever the
    environment.  The mounts leave the environment and the props alone, keep
    the links in range, create at most one node each, and do nothing to a
    node that was there but append children to it: tag, properties,
    attributes, parent and the children it had stay as they were. *)
Theorem mounts_only_append (n : nat) (w : world) (elem : option loc) :
  dom_closed (nodes w) = true ->
  (forall t, elem = Some t -> t < length (nodes w)) ->
  exists w',
    mounts n elem w = Done tt w' /\
    NODE_ENV w' = NODE_ENV w /\
    props w' = props w /\
    dom_closed (nodes w') = true /\
    length (nodes w) <= length (nodes w') <= length (nodes w) + n /\
    forall l e, nodes w !! l = Some e ->
      exists e', nodes w' !! l = Some e' /\ preserved e e'.
Proof.
  intros Hc Helem.
  assert (forall w0, (NODE_ENV w0 = JS.VStr "development" \/ elem = None) ->
            dom_closed (nodes w0) = true ->
            exists w', mounts n elem w0 = Done tt w' /\
              NODE_ENV w' = NODE_ENV w0 /\ props w' = props w0 /\
              dom_closed (nodes w') = true /\
              length (nodes w0) <= length (nodes w') <= length (nodes w0) + n /\
              forall l e, nodes w0 !! l = Some e ->
                exists e', nodes w' !! l = Some e' /\ preserved e e') as Hidle.
  { intros w0 H Hc0. exists w0. rewrite (mounts_idle n w0 elem H).
    repeat split; try done; try lia.
    intros l e Hl. exists e. split; [done|apply preserved_refl]. }
  destruct elem as [t|]; [|apply Hidle; [by right|done]].
  destruct (JS.strict_eq_string (NODE_ENV w) "development") eqn:Henv.
  { apply Hidle; [left; by apply strict_eq_string_true|done]. }
  specialize (Helem t eq_refl).
  destruct (lookup_lt_is_Some_2 _ _ Helem) as [te Ht].
  exists (World (NODE_ENV w) (mounted_n n t (nodes w)) (props w)).
  split; [by apply (mounts_production n w t te)|]. simpl.
  split; [done|]. split; [done|].
  split; [by apply mounted_n_closed|].
  split; [rewrite mounted_n_length; lia|].
  intros l e Hl. destruct (decide (l = t)) as [->|Hne].
  - exists (push_children (seq (length (nodes w)) n) te).
    rewrite (mounted_n_target n t (nodes w) te Ht).
    assert (e = te) as -> by congruence.
    split; [done|apply preserved_push_children].
  - exists e. rewrite mounted_n_frame; [|done|by eapply lookup_lt_Some].
    split; [done|apply preserved_refl].
Qed.

(** X11. Mounts onto two distinct targets do not interfere: in production,
    a mount onto [t1] followed by a mount onto [t2] gives each target one
    new script child of its own, [t1] the first node created and [t2] the
    second. *)
Theorem mounts_on_two_targets (w : world) (t1 t2 : loc) (e1 e2 : element) :
  JS.strict_eq_string (NODE_ENV w) "development" = false ->
  t1 <> t2 ->
  nodes w !! t1 = Some e1 ->
  nodes w !! t2 = Some e2 ->
  dom_closed (nodes w) = true ->
  exists w',
    (ref (Some t1);; ref (Some t2)) w = Done tt w' /\
    length (nodes w') = S (S (length (nodes w))) /\
    nodes w' !! t1 = Some (push_child (length (nodes w)) e1) /\
    nodes w' !! t2 = Some (push_child (S (length (nodes w))) e2) /\
    nodes w' !! length (nodes w) = Some (utterances_script t1) /\
    nodes w' !! S (length (nodes w)) = Some (utterances_script t2).
Proof.
  intros Henv Hne H1 H2 Hc.
  assert (t1 < length (nodes w)) as Hlt1 by (by eapply lookup_lt_Some).
  assert (t2 < length (nodes w)) as Hlt2 by (by eapply lookup_lt_Some).
  set (w1 := World (NODE_ENV w) (mounted t1 (nodes w)) (props w)).
  assert (nodes w1 !! t2 = Some e2) as H2'.
  { simpl. by rewrite mounted_frame. }
  assert (dom_closed (nodes w1) = true) as Hc1 by (by apply mounted_closed).
  exists (World (NODE_ENV w) (mounted t2 (mounted t1 (nodes w))) (props w)).
  split.
  { run. rewrite (ref_production w t1 e1) by done.
    exact (ref_production w1 t2 e2 Henv H2' Hc1). }
  simpl. rewrite !mounted_length.
  split; [done|].
  split. { rewrite mounted_frame; [by apply mounted_target|done|].
           rewrite mounted_length. lia. }
  split. { rewrite <- (mounted_length t1 (nodes w)). by apply mounted_target. }
  split. { rewrite mounted_frame; [apply mounted_new|lia|].
           rewrite mounted_length. lia. }
  rewrite <- (mounted_length t1 (nodes w)). apply mounted_new.
Qed.

End MoreCommentsFacts.

Lemma idle_mounts_do_nothing_witness :
  UtterancesComments.mounts 5 (Some 0)
    (Dom.World (JS.VStr "development") [Dom.Element "section" ∅ ∅ None []] [])
  = Dom.Done tt
      (Dom.World (JS.VStr "development") [Dom.Element "section" ∅ ∅ None []] []).
Proof. apply idle_mounts_do_nothing. left. reflexivity. Defined.

Lemma mounts_only_append_witness :
  exists w',
    UtterancesComments.mounts 2 (Some 0)
      (Dom.World JS.VUndefined [Dom.Element "section" ∅ ∅ None []] [])
    = Dom.Done tt w' /\
    Dom.NODE_ENV w' = JS.VUndefined /\
    Dom.dom_closed (Dom.nodes w') = true.
Proof.
  destruct (mounts_only_append 2
              (Dom.World JS.VUndefined [Dom.Element "section" ∅ ∅ None []] [])
              (Some 0))
    as (w' & Hrun & Henv & _ & Hclosed & _).
  - reflexivity.
  - intros t [= <-]. simpl. lia.
  - exists w'. repeat split; assumption.
Defined.

Lemma mounts_on_two_targets_witness :
  exists w',
    (UtterancesComments.ref (Some 0);; UtterancesComments.ref (Some 1))
      (Dom.World (JS.VStr "production")
         [Dom.Element "section" ∅ ∅ None []; Dom.Element "section" ∅ ∅ None []] [])
    = Dom.Done tt w' /\
    Dom.nodes w' !! 0 = Some (Dom.Element "section" ∅ ∅ None [2]) /\
    Dom.nodes w' !! 1 = Some (Dom.Element "section" ∅ ∅ None [3]).
Proof.
  destruct (mounts_on_two_targets
              (Dom.World (JS.VStr "production")
                 [Dom.Element "section" ∅ ∅ None []; Dom.Element "section" ∅ ∅ None []] [])
              0 1 (Dom.Element "section" ∅ ∅ None []) (Dom.Element "section" ∅ ∅ None []))
    as (w' & Hrun & _ & H0 & H1 & _);
    [reflexivity | lia | reflexivity | reflexivity | reflexivity |].
  exists w'. repeat split; assumption.
Defined.

(** ** The manifest and the page shell together *)

Section StylesheetFacts.
Import Dom Body GatsbyConfig.

Variable safePrefix : string -> JS.value.
Variable __dirname : string.
Variable path_resolve : string -> string.
Variable site_metadata : JS.value.
Variable menus : JS.value.

(** X12. The page shell links the stylesheet the manifest has the SASS
    plugin write: whenever the concatenated values convert to primitives,
    so that [render] returns a tree, the path it hands to [safePrefix] is
    the plugin's [outputFile] relative to [public/] under the site's
    directory, and the plugin compiles [src/sass/main.scss] of that same
    directory. *)
Theorem shell_links_the_sass_output (w : world) :
  convertible_context (props w) = true ->
  exists m rel,
    render safePrefix w = Done m w /\
    In (safePrefix rel) (stylesheet_hrefs m) /\
    find_plugin "gatsby-plugin-stackbit-static-sass"
      (module_exports __dirname path_resolve site_metadata menus)
      ≫= entry_option "outputFile"
    = Some (CStr (__dirname +:+ "/public/" +:+ rel)) /\
    find_plugin "gatsby-plugin-stackbit-static-sass"
      (module_exports __dirname path_resolve site_metadata menus)
      ≫= entry_option "inputFile"
    = Some (CStr (__dirname +:+ "/src/sass/main.scss")).
Proof.
  intros Hconv.
  destruct (render_returns safePrefix w Hconv) as (t & c & _ & _ & Hrun).
  eexists. exists "assets/css/main.css".
  split; [exact Hrun|].
  split; [right; left; reflexivity|].
  split; reflexivity.
Qed.

End StylesheetFacts.

Lemma shell_links_the_sass_output_witness :
  exists m rel,
    Body.render JS.VStr (Dom.World JS.VUndefined [] Body.bare_page)
    = Dom.Done m (Dom.World JS.VUndefined [] Body.bare_page) /\
    In (JS.VStr rel) (Body.stylesheet_hrefs m) /\
    GatsbyConfig.find_plugin "gatsby-plugin-stackbit-static-sass"
      (GatsbyConfig.module_exports "/site" (fun p => p) JS.VNull JS.VNull)
      ≫= GatsbyConfig.entry_option "outputFile"
    = Some (GatsbyConfig.CStr ("/site" +:+ "/public/" +:+ rel)).
Proof.
  destruct (shell_links_the_sass_output JS.VStr "/site" (fun p => p) JS.VNull JS.VNull
              (Dom.World JS.VUndefined [] Body.bare_page) eq_refl)
    as (m & rel & Hrun & Hin & Hout & _).
  exists m, rel. repeat split; assumption.
Defined.

(** ** The note server and client *)

Section NotesFacts.
Import NotesServer NotesClient.

Lemma all_have_room_empty : all_have_room ∅ = true.
Proof. apply bool_decide_eq_true_2, map_Forall_empty. Qed.

Lemma all_have_room_spec (subscribers : gmap string (list Note)) :
  all_have_room subscribers = true <->
  forall k buffer, subscribers !! k = Some buffer -> buffer = [].
Proof.
  unfold all_have_room. rewrite bool_decide_eq_true. unfold capacity. split.
  - intros H k buffer Hk. specialize (H k buffer Hk). simpl in H.
    destruct buffer; [done|simpl in H; lia].
  - intros H k buffer Hk. rewrite (H k buffer Hk). simpl. lia.
Qed.

(** X13. Without subscribers, every [CreateNote] whose id generation
    succeeds returns, and [Notes] then lists the notes that were there
    followed by the created ones, in the order of the calls. *)
Theorem notes_lists_created_in_order (inputs : list (string * string)) (r : Resolver) :
  noteCreatedSubscribers r = ∅ ->
  exists r',
    after_all (create_calls inputs) r = Some r' /\
    Notes r' = Notes r ++ created inputs /\
    noteCreatedSubscribers r' = ∅.
Proof.
  revert r. induction inputs as [|[id text] inputs IH]; intros r Hsubs.
  - exists r. simpl. by rewrite app_nil_r.
  - simpl. unfold CreateNote. rewrite Hsubs, all_have_room_empty, fmap_empty.
    destruct (IH {| noteCreatedSubscribers := ∅;
                    notes := notes r ++ [{| ID := id; Text := text |}] |} eq_refl)
      as (r' & Hrun & Hnotes & Hsubs').
    exists r'. split; [exact Hrun|]. split; [|exact Hsubs'].
    rewrite Hnotes. unfold Notes. simpl. by rewrite <- app_assoc.
Qed.

Lemma created_note_reaches_every_subscriber_aux (id text : string) (r : Resolver) :
  all_have_room (noteCreatedSubscribers r) = true ->
  exists r',
    CreateNote (Some id) text r = Returned {| ID := id; Text := text |} r' /\
    forall k, is_Some (noteCreatedSubscribers r !! k) ->
      noteCreatedSubscribers r' !! k = Some [{| ID := id; Text := text |}].
Proof.
  intros Hroom. unfold CreateNote. rewrite Hroom.
  eexists. split; [reflexivity|]. simpl.
  intros k [buffer Hk]. rewrite lookup_fmap, Hk. simpl.
  by rewrite (proj1 (all_have_room_spec _) Hroom k buffer Hk).
Qed.

(** X14. When no subscriber has an unread note, [CreateNote] returns the
    new note, appends it to the notes, and leaves exactly that note in
    every subscriber's channel; nobody is subscribed or unsubscribed. *)
Theorem created_note_reaches_every_subscriber (id text : string) (r : Resolver) :
  all_have_room (noteCreatedSubscribers r) = true ->
  exists r',
    CreateNote (Some id) text r = Returned {| ID := id; Text := text |} r' /\
    Notes r' = Notes r ++ [{| ID := id; Text := text |}] /\
    forall k,
      (is_Some (noteCreatedSubscribers r !! k) ->
       noteCreatedSubscribers r' !! k = Some [{| ID := id; Text := text |}]) /\
      (noteCreatedSubscribers r !! k = None ->
       noteCreatedSubscribers r' !! k = None).
Proof.
  intros Hroom. unfold CreateNote. rewrite Hroom.
  eexists. split; [reflexivity|]. split; [reflexivity|]. simpl.
  intros k. rewrite lookup_fmap. split.
  - intros [buffer Hk]. rewrite Hk. simpl.
    by rewrite (proj1 (all_have_room_spec _) Hroom k buffer Hk).
  - by intros ->.
Qed.

Lemma create_blocks_on_unread (id text k : string) (n : Note) (buffer : list Note)
    (r : Resolver) :
  noteCreatedSubscribers r !! k = Some (n :: buffer) ->
  CreateNote (Some id) text r = Blocked.
Proof.
  intros Hk. unfold CreateNote.
  destruct (all_have_room (noteCreatedSubscribers r)) eqn:Hroom; [|done].
  pose proof (proj1 (all_have_room_spec _) Hroom k _ Hk) as Habs.
  discriminate Habs.
Qed.

(** X15. The channels hold one note.  With somebody subscribed, a note
    created while the previous one is still unread does not come back:
    the first [CreateNote] returns and the second blocks. *)
Theorem second_note_blocks_until_read (id1 text1 id2 text2 k : string) (r : Resolver) :
  all_have_room (noteCreatedSubscribers r) = true ->
  is_Some (noteCreatedSubscribers r !! k) ->
  exists r',
    CreateNote (Some id1) text1 r = Returned {| ID := id1; Text := text1 |} r' /\
    CreateNote (Some id2) text2 r' = Blocked.
Proof.
  intros Hroom Hk.
  destruct (created_note_reaches_every_subscriber_aux id1 text1 r Hroom)
    as (r' & Hrun & Hsubs).
  exists r'. split; [exact Hrun|].
  eapply create_blocks_on_unread. by apply Hsubs.
Qed.


(** X16. Subscribing under an id that is not in use and disconnecting
    again leaves the resolver as it was; in between, the subscriber holds an
    empty channel. *)
Theorem subscribe_then_disconnect (id : string) (r : Resolver) :
  noteCreatedSubscribers r !! id = None ->
  exists r1,
    NoteCreated (Some id) r = Returned id r1 /\
    noteCreatedSubscribers r1 !! id = Some [] /\
    Notes r1 = Notes r /\
    disconnect id r1 = r.
Proof.
  intros Hfree. eexists. split; [reflexivity|]. simpl.
  split; [apply lookup_insert_eq|]. split; [done|].
  unfold disconnect. simpl. rewrite delete_insert_id by done. by destruct r.
Qed.

(** X17. With a subscriber's note left unread, it matters which comes
    first, the deletion of that subscription or the next [CreateNote].  If
    the subscription is deleted first and no other subscriber has an unread
    note, [CreateNote] returns and the note is listed.  If [CreateNote] comes
    first it blocks, and the run never reaches the deletion. *)
Theorem create_and_disconnect_do_not_commute (id text k : string) (n : Note)
    (buffer : list Note) (r : Resolver) :
  noteCreatedSubscribers r !! k = Some (n :: buffer) ->
  all_have_room (delete k (noteCreatedSubscribers r)) = true ->
  after_all [CallCreateNote (Some id) text; CallDisconnect k] r = None /\
  exists r',
    after_all [CallDisconnect k; CallCreateNote (Some id) text] r = Some r' /\
    Notes r' = Notes r ++ [{| ID := id; Text := text |}] /\
    noteCreatedSubscribers r' !! k = None.
Proof.
  intros Hk Hroom. split.
  - cbn [after_all after]. by rewrite (create_blocks_on_unread id text k n buffer r Hk).
  - cbn [after_all after]. unfold CreateNote, disconnect. simpl. rewrite Hroom.
    eexists. split; [reflexivity|]. split; [reflexivity|]. simpl.
    by rewrite lookup_fmap, lookup_delete_eq.
Qed.

Lemma after_keeps (c : call) (r r' : Resolver) :
  within_capacity r ->
  after c r = Some r' ->
  within_capacity r' /\ Notes r `prefix_of` Notes r'.
Proof.
  unfold within_capacity. intros Hcap Hstep.
  destruct c as [[id|] text|[id|]|id]; simpl in Hstep.
  - unfold CreateNote in Hstep.
    destruct (all_have_room (noteCreatedSubscribers r)) eqn:Hroom; [|done].
    injection Hstep as <-. simpl. split.
    + apply map_Forall_fmap. intros k buffer Hb. simpl.
      rewrite (proj1 (all_have_room_spec _) Hroom k buffer Hb). simpl.
      unfold capacity. lia.
    + unfold Notes. simpl. by apply prefix_app_r.
  - by injection Hstep as <-.
  - injection Hstep as <-. simpl. split; [|done].
    apply map_Forall_insert_2; [simpl; lia|done].
  - by injection Hstep as <-.
  - injection Hstep as <-. simpl. split; [|done].
    by apply map_Forall_delete.
Qed.

(** X18. Whatever calls are made, as long as they return: no channel ever
    holds more than one note, and the notes are never removed, changed or
    reordered, so that what [Notes] listed before is a prefix of what it
    lists after. *)
Theorem calls_keep_capacity_and_notes (cs : list call) (r r' : Resolver) :
  within_capacity r ->
  after_all cs r = Some r' ->
  within_capacity r' /\ Notes r `prefix_of` Notes r'.
Proof.
  revert r. induction cs as [|c cs IH]; intros r Hcap Hrun; simpl in Hrun.
  - injection Hrun as <-. done.
  - destruct (after c r) as [r1|] eqn:Hstep; [|done].
    destruct (after_keeps c r r1 Hcap Hstep) as [Hcap1 Hpre1].
    destruct (IH r1 Hcap1 Hrun) as [Hcap' Hpre'].
    split; [done|]. by etrans.
Qed.

(** X19. The client's cache follows the server.  Starting from a cache
    that holds the server's notes, and with nobody subscribed, creating
    notes one after the other, each followed by the mutation's [update],
    always goes through and ends with the cache holding exactly what
    [Notes] lists. *)
Theorem cache_follows_server (inputs : list (string * string)) (r : Resolver) :
  noteCreatedSubscribers r = ∅ ->
  exists r',
    create_and_update inputs r (Some (Notes r)) = Some (r', Some (Notes r')) /\
    Notes r' = Notes r ++ created inputs.
Proof.
  revert r. induction inputs as [|[id text] inputs IH]; intros r Hsubs.
  - exists r. simpl. by rewrite app_nil_r.
  - simpl. unfold CreateNote. rewrite Hsubs, all_have_room_empty, fmap_empty.
    destruct (IH {| noteCreatedSubscribers := ∅;
                    notes := notes r ++ [{| ID := id; Text := text |}] |} eq_refl)
      as (r' & Hrun & Hnotes).
    exists r'. split; [exact Hrun|].
    rewrite Hnotes. unfold Notes. simpl. by rewrite <- app_assoc.
Qed.

End NotesFacts.

Lemma notes_lists_created_in_order_witness :
  exists r',
    NotesServer.after_all
      (NotesServer.create_calls [("1", "milk"); ("2", "eggs")]) NotesServer.NewResolver
    = Some r' /\
    NotesServer.Notes r'
    = [NotesServer.Build_Note "1" "milk"; NotesServer.Build_Note "2" "eggs"].
Proof.
  destruct (notes_lists_created_in_order [("1", "milk"); ("2", "eggs")]
              NotesServer.NewResolver eq_refl)
    as (r' & Hrun & Hnotes & _).
  exists r'. split; [exact Hrun | exact Hnotes].
Defined.

Lemma created_note_reaches_every_subscriber_witness :
  exists r',
    NotesServer.CreateNote (Some "1") "milk" NotesServer.one_subscriber
    = NotesServer.Returned (NotesServer.Build_Note "1" "milk") r' /\
    NotesServer.noteCreatedSubscribers r' !! "s"
    = Some [NotesServer.Build_Note "1" "milk"].
Proof.
  destruct (created_note_reaches_every_subscriber "1" "milk" NotesServer.one_subscriber eq_refl)
    as (r' & Hrun & _ & Hsubs).
  exists r'. split; [exact Hrun|].
  apply (proj1 (Hsubs "s")). eexists. reflexivity.
Defined.

Lemma second_note_blocks_until_read_witness :
  exists r',
    NotesServer.CreateNote (Some "1") "milk" NotesServer.one_subscriber
    = NotesServer.Returned (NotesServer.Build_Note "1" "milk") r' /\
    NotesServer.CreateNote (Some "2") "eggs" r' = NotesServer.Blocked.
Proof.
  apply (second_note_blocks_until_read "1" "milk" "2" "eggs" "s" NotesServer.one_subscriber eq_refl).
  eexists. reflexivity.
Defined.

Lemma subscribe_then_disconnect_witness :
  exists r1,
    NotesServer.NoteCreated (Some "s") NotesServer.NewResolver
    = NotesServer.Returned "s" r1 /\
    NotesServer.disconnect "s" r1 = NotesServer.NewResolver.
Proof.
  destruct (subscribe_then_disconnect "s" NotesServer.NewResolver eq_refl)
    as (r1 & Hrun & _ & _ & Hback).
  exists r1. split; [exact Hrun | exact Hback].
Defined.

Lemma create_and_disconnect_do_not_commute_witness :
  NotesServer.after_all
    [NotesServer.CallCreateNote (Some "2") "eggs"; NotesServer.CallDisconnect "s"]
    NotesServer.one_unread = None /\
  exists r',
    NotesServer.after_all
      [NotesServer.CallDisconnect "s"; NotesServer.CallCreateNote (Some "2") "eggs"]
      NotesServer.one_unread = Some r' /\
    NotesServer.Notes r'
    = [NotesServer.Build_Note "1" "milk"; NotesServer.Build_Note "2" "eggs"].
Proof.
  destruct (create_and_disconnect_do_not_commute "2" "eggs" "s"
              (NotesServer.Build_Note "1" "milk") [] NotesServer.one_unread eq_refl eq_refl)
    as (Hblocked & r' & Hrun & Hnotes & _).
  split; [exact Hblocked|]. exists r'. split; [exact Hrun | exact Hnotes].
Defined.

Lemma calls_keep_capacity_and_notes_witness :
  NotesServer.within_capacity NotesServer.one_unread /\
  NotesServer.Notes NotesServer.NewResolver `prefix_of` NotesServer.Notes NotesServer.one_unread.
Proof.
  apply (calls_keep_capacity_and_notes
           [NotesServer.CallNoteCreated (Some "s");
            NotesServer.CallCreateNote None "lost";
            NotesServer.CallCreateNote (Some "1") "milk"]
           NotesServer.NewResolver NotesServer.one_unread).
  - apply map_Forall_empty.
  - reflexivity.
Defined.

Lemma cache_follows_server_witness :
  exists r',
    NotesClient.create_and_update [("1", "milk"); ("2", "eggs")]
      NotesServer.NewResolver (Some [])
    = Some (r', Some (NotesServer.Notes r')) /\
    NotesServer.Notes r'
    = [NotesServer.Build_Note "1" "milk"; NotesServer.Build_Note "2" "eggs"].
Proof.
  apply (cache_follows_server [("1", "milk"); ("2", "eggs")]
           NotesServer.NewResolver eq_refl).
Defined.
